(** * Products REST API: validation rules, handlers and routes

    A shallow embedding of the product API of this repository:
    - [src/router.ts]: the route table with its express-validator chains;
    - [src/handlers/product.ts]: the six request handlers;
    - the parts of validator.js, express-validator and the ORM that the
      routes and handlers call, as far as their results depend on them.

    A request is a path parameter and a JSON body; a handler maps a store
    (the products table) and a request to a new store and a response. *)

From Stdlib Require Import ZArith NArith Ascii String List Bool Lia.
From Stdlib Require Import DecimalString DecimalPos.
From stdpp Require Import gmap sorting strings.

Local Open Scope Z_scope.

(** ** JavaScript values of a JSON body *)

Module JS.

(** A JSON number, written as the ECMAScript number-to-string algorithm sees
    it: sign, the integer [s] of the significant digits and the decimal
    exponent, the value being [s * 10 ^ num_exp].  The number is in canonical
    form when [s] has no trailing zero digit (the "k as small as possible" of
    the algorithm); zero has [s = 0]. *)
Record jsnum := mkNum { num_neg : bool; num_mant : N; num_exp : Z }.

Definition canonical (x : jsnum) : Prop :=
  if (num_mant x =? 0)%N then num_exp x = 0
  else (num_mant x mod 10)%N <> 0%N.

(** The values a field of a parsed JSON body (or a missing field) can hold;
    arrays and nested objects are left out. *)
Inductive jsval :=
| JUndefined
| JNull
| JBool (b : bool)
| JNum (x : jsnum)
| JStr (s : string).

(** Decimal digits of a positive integer, and of a natural number. *)
Definition digits_of (m : N) : string := NilEmpty.string_of_uint (N.to_uint m).
Definition decimal_of (z : Z) : string := NilZero.string_of_uint (N.to_uint (Z.to_N z)).

Fixpoint zeros (n : nat) : string :=
  match n with
  | O => EmptyString
  | S n' => String "0" (zeros n')
  end.

(** The exponent part: the letter e, the sign of [e] and the decimal digits of
    its absolute value. *)
Definition exponent_part (e : Z) : string :=
  let sign := if e <? 0 then "-"%string else "+"%string in
  ("e" ++ sign ++ decimal_of (Z.abs e))%string.

(** ECMAScript Number::toString (radix 10), steps 5 to 10, for a number that
    is neither NaN nor infinite. *)
Definition Number_toString (x : jsnum) : string :=
  if (num_mant x =? 0)%N then "0"%string
  else
    let s := digits_of (num_mant x) in
    let k := Z.of_nat (String.length s) in
    let n := num_exp x + k in
    let body :=
      if (k <=? n) && (n <=? 21) then
        (s ++ zeros (Z.to_nat (n - k)))%string
      else if (0 <? n) && (n <=? 21) then
        (substring 0 (Z.to_nat n) s ++ "." ++
         substring (Z.to_nat n) (Z.to_nat (k - n)) s)%string
      else if (-6 <? n) && (n <=? 0) then
        ("0." ++ zeros (Z.to_nat (- n)) ++ s)%string
      else
        let e := n - 1 in
        if k =? 1 then (s ++ exponent_part e)%string
        else (substring 0 1 s ++ "." ++
              substring 1 (Z.to_nat (k - 1)) s ++ exponent_part e)%string
    in
    if num_neg x then ("-" ++ body)%string else body.

(** *** String to number, as the comparison [value > 0] needs it *)

Definition is_digit (c : ascii) : bool :=
  let n := nat_of_ascii c in (48 <=? n)%nat && (n <=? 57)%nat.

Definition digit_value (c : ascii) : N := (N_of_ascii c - 48)%N.

(** Value of a hexadecimal digit, [None] for another character. *)
Definition hex_value (c : ascii) : option N :=
  let n := N_of_ascii c in
  if ((48 <=? n) && (n <=? 57))%N then Some (n - 48)%N
  else if ((97 <=? n) && (n <=? 102))%N then Some (n - 87)%N
  else if ((65 <=? n) && (n <=? 70))%N then Some (n - 55)%N
  else None.

(** StrWhiteSpaceChar, for the characters a [string] of this file can hold
    (code units below 256): TAB, LF, VT, FF, CR, SP and NBSP. *)
Definition is_white (c : ascii) : bool :=
  let n := nat_of_ascii c in
  ((9 <=? n)%nat && (n <=? 13)%nat) || (n =? 32)%nat || (n =? 160)%nat.

Fixpoint span (p : ascii -> bool) (l : list ascii) : list ascii * list ascii :=
  match l with
  | c :: r => if p c then let (a, b) := span p r in (c :: a, b) else ([], l)
  | [] => ([], [])
  end.

Fixpoint trim_start (l : list ascii) : list ascii :=
  match l with
  | c :: r => if is_white c then trim_start r else l
  | [] => []
  end.

Definition trim (l : list ascii) : list ascii :=
  rev (trim_start (rev (trim_start l))).

(** Value of a sequence of digits in radix [radix]; [None] when the sequence
    is empty or holds a character that is not a digit of that radix. *)
Fixpoint radix_value (radix : N) (acc : N) (l : list ascii) : option N :=
  match l with
  | [] => Some acc
  | c :: r =>
      match hex_value c with
      | Some d => if (d <? radix)%N then radix_value radix (acc * radix + d)%N r else None
      | None => None
      end
  end.

Definition radix_literal (radix : N) (l : list ascii) : option N :=
  match l with
  | [] => None
  | _ => radix_value radix 0%N l
  end.

(** The mathematical value of a StringNumericLiteral. *)
Inductive literal_value :=
| MV_NaN
| MV_Infinity (neg : bool)
| MV_Decimal (neg : bool) (mant : N) (exp : Z).

(** ExponentPart, possibly absent, up to the end of the text. *)
Definition parse_exponent (l : list ascii) : option Z :=
  match l with
  | [] => Some 0
  | c :: r =>
      if (Ascii.eqb c "e" || Ascii.eqb c "E")%char then
        let '(neg, ds) :=
          match r with
          | "-"%char :: r' => (true, r')
          | "+"%char :: r' => (false, r')
          | _ => (false, r)
          end in
        match radix_literal 10 ds with
        | Some v => Some (if neg then - Z.of_N v else Z.of_N v)
        | None => None
        end
      else None
  end.

(** StrUnsignedDecimalLiteral without Infinity: digits with an optional
    fraction and an optional exponent; returns mantissa and exponent. *)
Definition parse_unsigned_decimal (l : list ascii) : option (N * Z) :=
  let '(ip, r) := span is_digit l in
  match r with
  | "."%char :: r1 =>
      let '(fp, r2) := span is_digit r1 in
      match radix_literal 10 (ip ++ fp), parse_exponent r2 with
      | Some m, Some e => Some (m, e - Z.of_nat (length fp))
      | _, _ => None
      end
  | _ =>
      match radix_literal 10 ip, parse_exponent r with
      | Some m, Some e => Some (m, e)
      | _, _ => None
      end
  end.

Definition parse_decimal (l : list ascii) : literal_value :=
  let '(neg, u) :=
    match l with
    | "-"%char :: r => (true, r)
    | "+"%char :: r => (false, r)
    | _ => (false, l)
    end in
  if String.eqb (string_of_list_ascii u) "Infinity" then MV_Infinity neg
  else match parse_unsigned_decimal u with
       | Some (m, e) => MV_Decimal neg m e
       | None => MV_NaN
       end.

(** ECMAScript StringToNumber, before rounding to a double: white space is
    trimmed, the empty text is 0, then a binary, octal or hexadecimal integer
    literal (unsigned) or a signed decimal literal; anything else is NaN. *)
Definition StringToNumber (s : string) : literal_value :=
  match trim (list_ascii_of_string s) with
  | [] => MV_Decimal false 0 0
  | "0"%char :: c :: r =>
      let prefixed (radix : N) :=
        match radix_literal radix r with
        | Some v => MV_Decimal false v 0
        | None => MV_NaN
        end in
      if (Ascii.eqb c "x" || Ascii.eqb c "X")%char then prefixed 16%N
      else if (Ascii.eqb c "o" || Ascii.eqb c "O")%char then prefixed 8%N
      else if (Ascii.eqb c "b" || Ascii.eqb c "B")%char then prefixed 2%N
      else parse_decimal ("0"%char :: c :: r)
  | l => parse_decimal l
  end.

(** Whether the double nearest to [mant * 10 ^ exp] is above zero: a positive
    value rounds to zero when it is at most half the least positive double,
    2 ^ -1075. *)
Definition rounds_above_zero (mant : N) (exp : Z) : bool :=
  if (mant =? 0)%N then false
  else if 0 <=? exp then true
  else 10 ^ (- exp) <? Z.of_N mant * 2 ^ 1075.

Definition literal_gt_zero (v : literal_value) : bool :=
  match v with
  | MV_NaN => false
  | MV_Infinity neg => negb neg
  | MV_Decimal neg mant exp => negb neg && rounds_above_zero mant exp
  end.

(** The JavaScript comparison [value > 0]: the value is converted to a number
    (undefined to NaN, null to 0, true to 1, false to 0, a string by
    StringToNumber) and NaN compares false. *)
Definition gt_zero (v : jsval) : bool :=
  match v with
  | JUndefined => false
  | JNull => false
  | JBool b => b
  | JNum x => negb (num_neg x) && negb (num_mant x =? 0)%N
  | JStr s => literal_gt_zero (StringToNumber s)
  end.

(** The comparison [value <= 0] on a JSON number. *)
Definition num_le_zero (x : jsnum) : bool :=
  num_neg x || (num_mant x =? 0)%N.

End JS.

(** ** validator.js: the string predicates behind the rules *)

Module Validator.
Import JS.

(** [isEmpty(str)] with its default options: the length is 0. *)
Definition isEmpty (str : string) : bool :=
  (String.length str =? 0)%nat.

Definition skip_sign (l : list ascii) : list ascii :=
  match l with
  | "+"%char :: r => r
  | "-"%char :: r => r
  | _ => l
  end.

Definition is_nil (l : list ascii) : bool :=
  match l with [] => true | _ => false end.

(** The part [([0-9]*[.])?[0-9]+$] of the expression below: digits, or
    digits (possibly none), a point and at least one digit. *)
Definition unsigned_numeric (l : list ascii) : bool :=
  let '(ip, r) := span is_digit l in
  match r with
  | [] => negb (is_nil ip)
  | "."%char :: f =>
      let '(fp, r') := span is_digit f in
      is_nil r' && negb (is_nil fp)
  | _ => false
  end.

(** [isNumeric(str)] with its default options: the regular expression
    [^[+-]?([0-9]*[.])?[0-9]+$]. *)
Definition isNumeric (str : string) : bool :=
  unsigned_numeric (skip_sign (list_ascii_of_string str)).

(** [isInt(str)] with its default options (leading zeroes allowed): the
    regular expression [^[-+]?[0-9]+$]. *)
Definition isInt (str : string) : bool :=
  let '(ds, r) := span is_digit (skip_sign (list_ascii_of_string str)) in
  is_nil r && negb (is_nil ds).

(** [isBoolean(str)] with its default (strict) options. *)
Definition isBoolean (str : string) : bool :=
  (String.eqb str "true" || String.eqb str "false" ||
   String.eqb str "1" || String.eqb str "0")%string.

End Validator.

(** ** express-validator: validation chains *)

Module ExpressValidator.
Import JS.

Inductive location := Body | Params.

(** A standard validator sees the field as a string, a custom one sees the
    value itself. *)
Inductive validator :=
| Standard (f : string -> bool)
| Custom (f : jsval -> bool).

Record item := mkItem {
  item_validator : validator;
  item_negated : bool;
  item_message : string
}.

(** The chain under construction: the field it selects, the validations added
    so far, and whether [not()] was called since the last one was added. *)
Record chain := mkChain {
  chain_location : location;
  chain_field : string;
  chain_items : list item;
  negateNext : bool
}.

Definition body (field : string) : chain := mkChain Body field [] false.
Definition param (field : string) : chain := mkChain Params field [] false.

(** [addItem]: the validation takes the pending negation, which is then
    reset. *)
Definition addItem (v : validator) (c : chain) : chain :=
  mkChain (chain_location c) (chain_field c)
          (chain_items c ++ [mkItem v (negateNext c) "Invalid value"]) false.

(** [not()] sets the flag; it does not toggle it. *)
Definition not_ (c : chain) : chain :=
  mkChain (chain_location c) (chain_field c) (chain_items c) true.

Fixpoint set_last_message (m : string) (l : list item) : list item :=
  match l with
  | [] => []
  | [i] => [mkItem (item_validator i) (item_negated i) m]
  | i :: r => i :: set_last_message m r
  end.

(** [withMessage(m)] sets the message of the validation added last. *)
Definition withMessage (m : string) (c : chain) : chain :=
  mkChain (chain_location c) (chain_field c)
          (set_last_message m (chain_items c)) (negateNext c).

Definition isEmpty : chain -> chain := addItem (Standard Validator.isEmpty).
Definition isNumeric : chain -> chain := addItem (Standard Validator.isNumeric).
Definition isInt : chain -> chain := addItem (Standard Validator.isInt).
Definition isBoolean : chain -> chain := addItem (Standard Validator.isBoolean).
Definition custom (f : jsval -> bool) : chain -> chain := addItem (Custom f).

(** [notEmpty()] is [this.not(); return this.isEmpty()]. *)
Definition notEmpty (c : chain) : chain := isEmpty (not_ c).

(** The string a standard validator is given for a value (the library's
    [toString]): the empty string for undefined and null, [String(value)]
    otherwise. *)
Definition toString (v : jsval) : string :=
  match v with
  | JUndefined => ""
  | JNull => ""
  | JBool true => "true"
  | JBool false => "false"
  | JNum x => Number_toString x
  | JStr s => s
  end.

Record error := mkError {
  err_msg : string;
  err_path : string;
  err_location : location;
  err_value : jsval
}.

(** Whether the validation fails on the value: its validator's result, read
    the other way round when the validation is negated. *)
Definition item_fails (i : item) (value : jsval) : bool :=
  let result :=
    match item_validator i with
    | Standard f => f (toString value)
    | Custom f => f value
    end in
  if item_negated i then result else negb result.

(** Every validation of the chain runs (there is no [bail()]); each failure
    adds one error, in the order of the chain. *)
Fixpoint run_items (loc : location) (field : string) (value : jsval)
    (l : list item) : list error :=
  match l with
  | [] => []
  | i :: r =>
      if item_fails i value
      then mkError (item_message i) field loc value :: run_items loc field value r
      else run_items loc field value r
  end.

End ExpressValidator.

(** ** Requests and responses *)

Import JS.

(** What [new Date(value)] makes of a body field that a date column reads:
    nothing when the field is not sent (or is falsy, which the model takes
    for not sent), an instant, or an invalid date. *)
Inductive date_value :=
| DateAbsent
| DateAt (t : Z)
| DateInvalid.

(** The body fields the routes and the model read: the attributes of the
    model that a client can set.  A field the request does not send is
    [JUndefined]; an [updatedAt] that is sent is never used (the model stamps
    it on every write), and other keys are ignored. *)
Record body := mkFullBody {
  b_id : jsval;
  b_name : jsval;
  b_price : jsval;
  b_availability : jsval;
  b_createdAt : date_value
}.

(** A body that sends name, price and availability only. *)
Definition mkBody (name price availability : jsval) : body :=
  mkFullBody JUndefined name price availability DateAbsent.

(** A request: the [:id] segment of the path (unused by the routes without
    one) and the parsed JSON body. *)
Record request := mkRequest {
  req_id : string;
  req_body : body
}.

Definition field_value (req : request) (loc : ExpressValidator.location)
    (field : string) : jsval :=
  match loc with
  | ExpressValidator.Params =>
      if String.eqb field "id" then JStr (req_id req) else JUndefined
  | ExpressValidator.Body =>
      if String.eqb field "name" then b_name (req_body req)
      else if String.eqb field "price" then b_price (req_body req)
      else if String.eqb field "availability" then b_availability (req_body req)
      else if String.eqb field "id" then b_id (req_body req)
      else JUndefined
  end.

Definition run_chain (req : request) (c : ExpressValidator.chain)
    : list ExpressValidator.error :=
  ExpressValidator.run_items
    (ExpressValidator.chain_location c) (ExpressValidator.chain_field c)
    (field_value req (ExpressValidator.chain_location c) (ExpressValidator.chain_field c))
    (ExpressValidator.chain_items c).

(** [validationResult(req).array()]: the errors of the chains of the route, in
    the order of the chains. *)
Definition validationResult (chains : list ExpressValidator.chain)
    (req : request) : list ExpressValidator.error :=
  flat_map (run_chain req) chains.

(** ** The Product model and its table *)

(** An awaited persistence call either resolves to a value or rejects. *)
Inductive promise (A : Type) :=
| Resolved (a : A)
| Rejected.
Arguments Resolved {A} a.
Arguments Rejected {A}.

Inductive direction := ASC | DESC.

Module Product.

(** Modelled from the spec: the Product model ([src/models/Product.model.ts]
    is not among the sources).  A row has the columns of the data model
    (name: text, price: numeric, availability: boolean) and the two audit
    timestamps that [getProducts] excludes; the key of the table is the
    integer id.  Name and price are required; the availability column can
    hold a null, which is [None]. *)
Record row := mkRow {
  row_name : string;
  row_price : jsnum;
  row_availability : option bool;
  row_createdAt : Z;
  row_updatedAt : Z
}.

(** The table with the sequence that generates the ids. *)
Record store := mkStore {
  table : gmap Z row;
  last_id : Z
}.

(** A model instance, as a handler holds it and as [res.json] serialises it:
    the attributes that were selected; an excluded timestamp is [None]. *)
Record t := mk {
  id : Z;
  name : string;
  price : jsnum;
  availability : option bool;
  createdAt : option Z;
  updatedAt : option Z
}.

Definition excluded (attribute : string) (exclude : list string) : bool :=
  existsb (String.eqb attribute) exclude.

Definition instance (exclude : list string) (k : Z) (r : row) : t :=
  mk k (row_name r) (row_price r) (row_availability r)
     (if excluded "createdAt" exclude then None else Some (row_createdAt r))
     (if excluded "updatedAt" exclude then None else Some (row_updatedAt r)).

Definition sort_ids (d : direction) (ids : list Z) : list Z :=
  match d with
  | ASC => merge_sort Z.le ids
  | DESC => merge_sort (flip Z.le) ids
  end.

(** Modelled from the spec: [findAll({ order: [["id", d]], attributes:
    { exclude } })] fetches all entities ordered by id, without the excluded
    attributes. *)
Definition findAll (d : direction) (exclude : list string) (st : store)
    : promise (list t) :=
  Resolved
    (omap (fun k => instance exclude k <$> table st !! k)
          (sort_ids d (elements (dom (table st))))).

(** The id column is a 32-bit integer (the database of [src/config/db.ts] is
    Postgres). *)
Definition id_in_range (k : Z) : bool :=
  (-2147483648 <=? k) && (k <=? 2147483647).

(** The primary key as the database reads it from the text of the path: an
    optional sign and decimal digits, within the range of the column. *)
Definition parse_id (s : string) : option Z :=
  let l := list_ascii_of_string s in
  match radix_literal 10 (Validator.skip_sign l) with
  | Some v =>
      let k := match l with
               | "-"%char :: _ => - Z.of_N v
               | _ => Z.of_N v
               end in
      if id_in_range k then Some k else None
  | None => None
  end.

(** Modelled from the spec: [findByPk(id)] fetches by primary key and resolves
    to null when no row has it.  A text that is no integer of the column's
    range makes the query fail. *)
Definition findByPk (st : store) (id_text : string) : promise (option t) :=
  match parse_id id_text with
  | Some k => Resolved (instance [] k <$> table st !! k)
  | None => Rejected
  end.

(** *** How the columns read a body field

    Modelled from the spec (id: integer; name: text, required; price:
    numeric, required; availability: boolean, defaults to true at creation).
    A value reaches the database as its text, and each column reads that text
    as a value of its own type or refuses it. *)

(** White space that the database skips around a number or a boolean. *)
Definition is_space (c : ascii) : bool :=
  let n := nat_of_ascii c in
  ((9 <=? n)%nat && (n <=? 13)%nat) || (n =? 32)%nat.

Fixpoint skip_spaces (l : list ascii) : list ascii :=
  match l with
  | c :: r => if is_space c then skip_spaces r else l
  | [] => []
  end.

Definition trim_spaces (l : list ascii) : list ascii :=
  rev (skip_spaces (rev (skip_spaces l))).

(** The name column: the text of the value ([String(value)]); null is
    refused, the name being required. *)
Definition text_column (v : jsval) : option string :=
  match v with
  | JUndefined => None
  | JNull => None
  | _ => Some (ExpressValidator.toString v)
  end.

(** A decimal number without trailing zeros in its digits. *)
Fixpoint strip_zeros (fuel : nat) (m : N) (e : Z) : N * Z :=
  match fuel with
  | O => (m, e)
  | S fuel' =>
      if (negb (m =? 0) && (m mod 10 =? 0))%N
      then strip_zeros fuel' (m / 10)%N (e + 1)
      else (m, e)
  end.

Definition normal (neg : bool) (m : N) (e : Z) : jsnum :=
  if (m =? 0)%N then mkNum false 0 0
  else let '(m', e') := strip_zeros (N.to_nat (N.size m)) m e in
       mkNum neg m' e'.

(** The price column: a number as it is, and a text when it is a decimal
    numeral (optional sign, digits with an optional fraction, an optional
    exponent), for the number it denotes. *)
Definition numeric_column (v : jsval) : option jsnum :=
  match v with
  | JNum x => Some x
  | JStr s =>
      match parse_decimal (trim_spaces (list_ascii_of_string s)) with
      | MV_Decimal neg m e => Some (normal neg m e)
      | _ => None
      end
  | _ => None
  end.

(** The integer that a number is, if it is one. *)
Definition integer_of_num (x : jsnum) : option Z :=
  let sign (z : Z) := if num_neg x then - z else z in
  if (num_mant x =? 0)%N then Some 0
  else if 0 <=? num_exp x then Some (sign (Z.of_N (num_mant x) * 10 ^ num_exp x))
  else
    let d := 10 ^ (- num_exp x) in
    if Z.of_N (num_mant x) mod d =? 0
    then Some (sign (Z.of_N (num_mant x) / d))
    else None.

(** The id column, for an id that the body sends: an integer number, or a
    text that denotes one, within the range of the column. *)
Definition integer_column (v : jsval) : option Z :=
  match v with
  | JNum x =>
      match integer_of_num x with
      | Some k => if id_in_range k then Some k else None
      | None => None
      end
  | JStr s =>
      parse_id (string_of_list_ascii (trim_spaces (list_ascii_of_string s)))
  | _ => None
  end.

Definition lower (c : ascii) : ascii :=
  let n := nat_of_ascii c in
  if ((65 <=? n) && (n <=? 90))%nat then ascii_of_nat (n + 32) else c.

(** The texts that the database reads as a boolean: the prefixes of true,
    false, yes and no, on, off (or of), 1 and 0, in either case and with
    white space around them. *)
Definition boolean_text (s : string) : option bool :=
  let t := string_of_list_ascii
             (map lower (trim_spaces (list_ascii_of_string s))) in
  if existsb (String.eqb t)
       ["t"; "tr"; "tru"; "true"; "y"; "ye"; "yes"; "on"; "1"] then Some true
  else if existsb (String.eqb t)
       ["f"; "fa"; "fal"; "fals"; "false"; "n"; "no"; "of"; "off"; "0"]
  then Some false
  else None.

(** The conversion that the model applies to a boolean attribute when it is
    set: the texts true and false and the numbers 1 and 0 become booleans,
    any other value stays. *)
Definition boolean_attribute (v : jsval) : jsval :=
  match v with
  | JStr s =>
      if String.eqb s "true" then JBool true
      else if String.eqb s "false" then JBool false
      else v
  | JNum x =>
      match integer_of_num x with
      | Some 1 => JBool true
      | Some 0 => JBool false
      | _ => v
      end
  | _ => v
  end.

(** The availability column: the default when the field is not sent, a null
    and a boolean as they are, a text that the database reads as a boolean;
    any other value is refused. *)
Definition boolean_column (default : option bool) (v : jsval)
    : option (option bool) :=
  match boolean_attribute v with
  | JUndefined => Some default
  | JNull => Some None
  | JBool b => Some (Some b)
  | JStr s => Some <$> boolean_text s
  | _ => None
  end.

(** The id of a new row and the sequence after it: the id that the values
    send, or else the next of the sequence. *)
Definition new_id (st : store) (v : jsval) : option (Z * Z) :=
  match v with
  | JUndefined => Some (last_id st + 1, last_id st + 1)
  | JNull => Some (last_id st + 1, last_id st + 1)
  | _ =>
      match integer_column v with
      | Some k => Some (k, last_id st)
      | None => None
      end
  end.

(** The creation time of a new row: the one that the values send, or else
    the time of the request. *)
Definition date_column (now : Z) (v : date_value) : option Z :=
  match v with
  | DateAbsent => Some now
  | DateAt t => Some t
  | DateInvalid => None
  end.

(** Modelled from the spec: [create(values)] builds the entity from the values
    it is given: the columns read name, price and availability, the id is the
    one that the values send or else the next of the sequence, [createdAt] is
    the one that the values send or else the time of the request, and
    [updatedAt] is stamped.  The row is inserted when its id is not in use,
    and the call resolves to the new instance as the database returns it;
    otherwise it rejects.  The result is the store after the call with the
    promise: an insert that takes the next id of the sequence and finds it in
    use rejects after the sequence has advanced. *)
Definition create (now : Z) (st : store) (values : body)
    : store * promise t :=
  match text_column (b_name values), numeric_column (b_price values),
        boolean_column (Some true) (b_availability values),
        date_column now (b_createdAt values),
        new_id st (b_id values) with
  | Some n, Some p, Some a, Some c, Some (k, next) =>
      if id_in_range k then
        match table st !! k with
        | Some _ => (mkStore (table st) next, Rejected)
        | None =>
            let r := mkRow n p a c now in
            (mkStore (<[k := r]> (table st)) next, Resolved (instance [] k r))
        end
      else (st, Rejected)
  | _, _, _, _, _ => (st, Rejected)
  end.

(** The row an instance stands for; the timestamps are those of the stored
    row [old]. *)
Definition to_row (old : row) (p : t) : row :=
  mkRow (name p) (price p) (availability p) (row_createdAt old) (row_updatedAt old).

Definition same_number (x y : jsnum) : bool :=
  Bool.eqb (num_neg x) (num_neg y)
  && (num_mant x =? num_mant y)%N
  && (num_exp x =? num_exp y).

Definition same_boolean (a b : option bool) : bool :=
  match a, b with
  | Some x, Some y => Bool.eqb x y
  | None, None => true
  | _, _ => false
  end.

Definition same_columns (r1 r2 : row) : bool :=
  String.eqb (row_name r1) (row_name r2)
  && Bool.eqb (num_neg (row_price r1)) (num_neg (row_price r2))
  && (num_mant (row_price r1) =? num_mant (row_price r2))%N
  && (num_exp (row_price r1) =? num_exp (row_price r2))
  && same_boolean (row_availability r1) (row_availability r2).

Definition touch (now : Z) (r : row) : row :=
  mkRow (row_name r) (row_price r) (row_availability r) (row_createdAt r) now.

(** Modelled from the spec: [instance.save()] persists the instance.  Nothing
    is written when no attribute differs from the stored row; otherwise the
    row is updated and [updatedAt] is stamped. *)
Definition save (now : Z) (st : store) (p : t) : promise (store * t) :=
  match table st !! id p with
  | None => Resolved (st, p)
  | Some old =>
      if same_columns old (to_row old p) then Resolved (st, p)
      else
        let r := touch now (to_row old p) in
        Resolved (mkStore (<[id p := r]> (table st)) (last_id st),
                  mk (id p) (name p) (price p) (availability p)
                     (createdAt p) (Some now))
  end.

(** Whether setting the values changes no attribute of the instance: each
    value that is sent is the value the instance has (an id or a [createdAt]
    that is sent is not set: the primary key and the audit fields of a stored
    instance are not the client's to change). *)
Definition changes_nothing (p : t) (values : body) : bool :=
  match b_name values with
  | JUndefined => true
  | JStr s => String.eqb s (name p)
  | _ => false
  end
  && match b_price values with
     | JUndefined => true
     | JNum x => same_number x (price p)
     | _ => false
     end
  && match boolean_attribute (b_availability values) with
     | JUndefined => true
     | JNull => same_boolean None (availability p)
     | JBool b => same_boolean (Some b) (availability p)
     | _ => false
     end.

(** Whether the values send an attribute of the model. *)
Definition sends_attribute (values : body) : bool :=
  let sent (v : jsval) := match v with JUndefined => false | _ => true end in
  sent (b_id values) || sent (b_name values) || sent (b_price values)
  || sent (b_availability values)
  || match b_createdAt values with DateAbsent => false | _ => true end.

(** The instance with [updatedAt] set to the time of the call. *)
Definition stamp (now : Z) (p : t) : t :=
  mk (id p) (name p) (price p) (availability p) (createdAt p) (Some now).

(** Modelled from the spec: [instance.update(values)] overwrites the mutable
    fields that the values carry and persists the instance.  When the values
    change no attribute nothing is written (the instance in memory has by
    then been stamped, if the values send an attribute at all); otherwise the
    columns read the values, the row is updated and [updatedAt] is stamped.
    The instance that it resolves to holds the values as the columns read
    them, which is what the instance of the program holds when the values
    have the types of the columns (a text, a number, a boolean). *)
Definition update (now : Z) (st : store) (p : t) (values : body)
    : promise (store * t) :=
  if changes_nothing p values
  then Resolved (st, if sends_attribute values then stamp now p else p)
  else
    let n := match b_name values with
             | JUndefined => Some (name p)
             | v => text_column v
             end in
    let x := match b_price values with
             | JUndefined => Some (price p)
             | v => numeric_column v
             end in
    match n, x, boolean_column (availability p) (b_availability values) with
    | Some n', Some x', Some a' =>
        match table st !! id p with
        | None => Resolved (st, p)
        | Some old =>
            let r := mkRow n' x' a' (row_createdAt old) now in
            Resolved (mkStore (<[id p := r]> (table st)) (last_id st),
                      mk (id p) n' x' a' (createdAt p) (Some now))
        end
    | _, _, _ => Rejected
    end.

(** Modelled from the spec: [instance.destroy()] removes the row permanently
    (there is no soft delete). *)
Definition destroy (st : store) (p : t) : promise store :=
  Resolved (mkStore (delete (id p) (table st)) (last_id st)).

(** The JavaScript truth value of an availability: a null counts as
    false. *)
Definition truthy (a : option bool) : bool :=
  match a with
  | Some b => b
  | None => false
  end.

(** [product.availability = v]. *)
Definition set_availability (v : bool) (p : t) : t :=
  mk (id p) (name p) (price p) (Some v) (createdAt p) (updatedAt p).

End Product.

(** ** Responses *)

Inductive payload :=
| Data_products (products : list Product.t)   (* { data: [...] } *)
| Data_product (product : Product.t)          (* { data: product } *)
| Data_text (s : string)                       (* { data: "..." } *)
| Error_text (s : string)                      (* { error: "..." } *)
| Errors (errors : list ExpressValidator.error). (* { errors: [...] } *)

Record response := mkResponse {
  status : Z;
  json : payload
}.

(** What a request leaves behind: the store, and the response if one was
    sent. *)
Definition outcome : Type := Product.store * option response.

(** ** The handlers of [src/handlers/product.ts]

    [now] is the time of the request, which the model stamps on the rows it
    writes.  [res.json] without [res.status] answers 200. *)

Definition getProducts (st : Product.store) (req : request) : outcome :=
  match Product.findAll DESC ["createdAt"; "updatedAt"] st with
  | Resolved products => (st, Some (mkResponse 200 (Data_products products)))
  | Rejected => (st, None)   (* caught and logged *)
  end.

Definition getProductById (st : Product.store) (req : request) : outcome :=
  match Product.findByPk st (req_id req) with
  | Resolved None => (st, Some (mkResponse 404 (Error_text "Product not found")))
  | Resolved (Some product) => (st, Some (mkResponse 200 (Data_product product)))
  | Rejected => (st, Some (mkResponse 500 (Error_text "Server error")))
  end.

Definition createProduct (now : Z) (st : Product.store) (req : request) : outcome :=
  match Product.create now st (req_body req) with
  | (st', Resolved product) => (st', Some (mkResponse 201 (Data_product product)))
  | (st', Rejected) => (st', None)   (* caught and logged *)
  end.

(** The three handlers below have no [try]: a rejected call is not handled
    and no response is written. *)
Definition updateProduct (now : Z) (st : Product.store) (req : request) : outcome :=
  match Product.findByPk st (req_id req) with
  | Rejected => (st, None)
  | Resolved None => (st, Some (mkResponse 404 (Error_text "Product not found")))
  | Resolved (Some product) =>
      match Product.update now st product (req_body req) with
      | Rejected => (st, None)
      | Resolved (st1, product1) =>
          match Product.save now st1 product1 with
          | Rejected => (st1, None)
          | Resolved (st2, product2) =>
              (st2, Some (mkResponse 200 (Data_product product2)))
          end
      end
  end.

Definition updateAvailability (now : Z) (st : Product.store) (req : request) : outcome :=
  match Product.findByPk st (req_id req) with
  | Rejected => (st, None)
  | Resolved None => (st, Some (mkResponse 404 (Error_text "Product not found")))
  | Resolved (Some product) =>
      let product1 :=
        Product.set_availability
          (negb (Product.truthy (Product.availability product))) product in
      match Product.save now st product1 with
      | Rejected => (st, None)
      | Resolved (st1, product2) =>
          (st1, Some (mkResponse 200 (Data_product product2)))
      end
  end.

Definition deleteProduct (st : Product.store) (req : request) : outcome :=
  match Product.findByPk st (req_id req) with
  | Rejected => (st, None)
  | Resolved None => (st, Some (mkResponse 404 (Error_text "Product not found")))
  | Resolved (Some product) =>
      match Product.destroy st product with
      | Rejected => (st, None)
      | Resolved st1 => (st1, Some (mkResponse 200 (Data_text "Product deleted")))
      end
  end.

(** ** The routes of [src/router.ts] *)

Module Router.
Import ExpressValidator.

Notation "c |> f" := (f c) (at level 50, left associativity, only parsing).

(** Modelled from the spec: [handleInputErrors] ([src/middleware] is not among
    the sources).  If any rule failed it responds with status 400 and a body
    [{ errors: [...] }] and halts; if all rules pass it continues to the next
    handler. *)
Definition handleInputErrors (errors : list error)
    (next : Product.store -> request -> outcome)
    (st : Product.store) (req : request) : outcome :=
  match errors with
  | [] => next st req
  | _ => (st, Some (mkResponse 400 (Errors errors)))
  end.

(** A route: its validation chains, then [handleInputErrors], then the
    handler. *)
Definition route (chains : list chain)
    (handler : Product.store -> request -> outcome)
    (st : Product.store) (req : request) : outcome :=
  handleInputErrors (validationResult chains req) handler st req.

Definition name_rule : chain :=
  body "name" |> not_ |> notEmpty |> withMessage "Name is required".

Definition price_rule : chain :=
  body "price"
    |> isNumeric |> withMessage "Price must be a number"
    |> notEmpty |> withMessage "Price is required"
    |> custom (fun value => gt_zero value)
    |> withMessage "Price must be greater than 0".

Definition availability_rule : chain :=
  body "availability" |> isBoolean |> withMessage "Availability must be a boolean".

Definition get_rules : list chain :=
  [ param "id" |> isInt |> withMessage "Id must be an integer" ].

Definition post_rules : list chain :=
  [ name_rule; price_rule ].

Definition put_rules : list chain :=
  [ param "id" |> isInt |> withMessage "not a valid id";
    name_rule; price_rule; availability_rule ].

Definition patch_rules : list chain :=
  [ param "id" |> isInt |> withMessage "not a valid id" ].

Definition delete_rules : list chain :=
  [ param "id" |> isInt |> withMessage "not a valid id" ].

(** router.get("/") *)
Definition get_all : Product.store -> request -> outcome :=
  route [] getProducts.

(** router.get("/:id") *)
Definition get : Product.store -> request -> outcome :=
  route get_rules getProductById.

(** router.post("/") *)
Definition post (now : Z) : Product.store -> request -> outcome :=
  route post_rules (createProduct now).

(** router.put("/:id") *)
Definition put (now : Z) : Product.store -> request -> outcome :=
  route put_rules (updateProduct now).

(** router.patch("/:id") *)
Definition patch (now : Z) : Product.store -> request -> outcome :=
  route patch_rules (updateAvailability now).

(** router.delete("/:id") *)
Definition delete : Product.store -> request -> outcome :=
  route delete_rules deleteProduct.

End Router.

(** ** Vocabulary of the statements *)

Definition empty_store : Product.store := Product.mkStore ∅ 0.

(** The errors of one validation: none, or the one with its message. *)
Definition error_if (failed : bool) (m field : string)
    (loc : ExpressValidator.location) (value : jsval)
    : list ExpressValidator.error :=
  if failed then [ExpressValidator.mkError m field loc value] else [].

Definition name_errors (v : jsval) : list ExpressValidator.error :=
  error_if (Validator.isEmpty (ExpressValidator.toString v))
           "Name is required" "name" ExpressValidator.Body v.

Definition price_errors (v : jsval) : list ExpressValidator.error :=
  error_if (negb (Validator.isNumeric (ExpressValidator.toString v)))
           "Price must be a number" "price" ExpressValidator.Body v
  ++ error_if (Validator.isEmpty (ExpressValidator.toString v))
           "Price is required" "price" ExpressValidator.Body v
  ++ error_if (negb (gt_zero v))
           "Price must be greater than 0" "price" ExpressValidator.Body v.

Definition availability_errors (v : jsval) : list ExpressValidator.error :=
  error_if (negb (Validator.isBoolean (ExpressValidator.toString v)))
           "Availability must be a boolean" "availability" ExpressValidator.Body v.

Definition id_errors (m : string) (id_text : string)
    : list ExpressValidator.error :=
  error_if (negb (Validator.isInt id_text)) m "id" ExpressValidator.Params
           (JStr id_text).

(** The errors of the body rules of the update route. *)
Definition put_body_errors (b : body) : list ExpressValidator.error :=
  name_errors (b_name b) ++ price_errors (b_price b)
  ++ availability_errors (b_availability b).

(** The position of the decimal point of a number, counted from its first
    significant digit: the [n] of Number::toString, with
    [10 ^ (n - 1) <= |x| < 10 ^ n]. *)
Definition point_position (x : jsnum) : Z :=
  num_exp x + Z.of_nat (String.length (digits_of (num_mant x))).

(** The numbers that Number::toString writes without an exponent: zero, and
    those with [1e-6 <= |x| < 1e21]. *)
Definition plain_notation (x : jsnum) : Prop :=
  num_mant x = 0%N \/ -6 < point_position x <= 21.

(** A product as the list shows it: the row without its timestamps. *)
Definition listed (k : Z) (r : Product.row) : Product.t :=
  Product.mk k (Product.row_name r) (Product.row_price r)
             (Product.row_availability r) None None.

(** A product as the other responses show it: the whole row. *)
Definition shown (k : Z) (r : Product.row) : Product.t :=
  Product.mk k (Product.row_name r) (Product.row_price r)
             (Product.row_availability r)
             (Some (Product.row_createdAt r)) (Some (Product.row_updatedAt r)).

(** Descending order of the ids. *)
Definition id_desc (p q : Product.t) : Prop := Product.id q < Product.id p.

(** The answer of a handler that found no row: the store as it was and a 404
    with [{ error: "Product not found" }]. *)
Definition not_found (st : Product.store) : outcome :=
  (st, Some (mkResponse 404 (Error_text "Product not found"))).

(** ** Sample requests and stores *)

Definition no_body : body := mkBody JUndefined JUndefined JUndefined.

(** The request of the tests for product 1. *)
Definition toggle_request : request := mkRequest "1" no_body.

Definition mouse_row : Product.row :=
  Product.mkRow "Mouse-Testing" (mkNum false 1 2) (Some true) 5 5.

Definition one_product : Product.store :=
  Product.mkStore {[ 1 := mouse_row ]} 1.


(** The characters of a text. *)
Definition chars (s : string) : list ascii := list_ascii_of_string s.

(** A create request with a price of -0.0000001. *)
Definition tiny_negative : jsnum := mkNum true 1 (-7).

Definition tiny_price_request : request :=
  mkRequest "" (mkBody (JStr "Monitor-Testing") (JNum tiny_negative) JUndefined).

(** The create request of the tests with a price of 0. *)
Definition zero_price_request : request :=
  mkRequest "" (mkBody (JStr "Monitor-Testing") (JNum (mkNum false 0 0)) JUndefined).

(** A create request without a name, and the valid one of the tests. *)
Definition nameless_request : request :=
  mkRequest "" (mkBody JUndefined (JNum (mkNum false 1 2)) JUndefined).

Definition mouse_request : request :=
  mkRequest "" (mkBody (JStr "Mouse-Testing") (JNum (mkNum false 1 2)) JUndefined).


(** A valid create request that sends [availability: null], and the store
    it leaves when nothing was stored. *)
Definition null_availability_request : request :=
  mkRequest "" (mkBody (JStr "Mouse-Testing") (JNum (mkNum false 1 2)) JNull).

Definition null_product : Product.store :=
  Product.mkStore
    {[ 1 := Product.mkRow "Mouse-Testing" (mkNum false 1 2) None 5 5 ]} 1.

(** A valid create request that also sends the id 7, and the store it leaves
    when nothing was stored: the sequence has not moved. *)
Definition numbered_request : request :=
  mkRequest ""
    (mkFullBody (JNum (mkNum false 7 0)) (JStr "Mouse-Testing")
                (JNum (mkNum false 1 2)) JUndefined DateAbsent).

Definition seventh_product : Product.store :=
  Product.mkStore {[ 7 := mouse_row ]} 0.

(** A store whose sequence is behind the id in use. *)
Definition sequence_behind : Product.store :=
  Product.mkStore {[ 1 := mouse_row ]} 0.


(** The requests of the tests with an id that is no integer: with the valid
    body of the update test, and with no body. *)
Definition bad_id_request : request :=
  mkRequest "not-valid-url"
    (mkBody (JStr "Monitor-Testing") (JNum (mkNum false 1 2)) (JBool true)).

Definition bad_id_empty_request : request :=
  mkRequest "not-valid-url" no_body.

(** ** Vocabulary of the further properties *)

(** A character that [isNumeric] can accept after the sign. *)
Definition numeric_char (c : ascii) : bool :=
  is_digit c || Ascii.eqb c ".".

(** The request was answered with status [s]. *)
Definition answered (o : outcome) (s : Z) : Prop :=
  exists j, snd o = Some (mkResponse s j).

(** The response is a success: 200 or 201. *)
Definition succeeded (o : outcome) : Prop := answered o 200 \/ answered o 201.

(** A handler or route keeps the relation [R] between the store it is given
    and the store it leaves. *)
Definition respects (R : Product.store -> Product.store -> Prop)
    (h : Product.store -> request -> outcome) : Prop :=
  forall st req, R st (fst (h st req)).

(** The same ids are in use and the sequence has not moved. *)
Definition same_ids (st st1 : Product.store) : Prop :=
  dom (Product.table st1) = dom (Product.table st)
  /\ Product.last_id st1 = Product.last_id st.

(** Rows may have been added, none removed or changed. *)
Definition only_adds (st st1 : Product.store) : Prop :=
  Product.table st ⊆ Product.table st1.

(** Rows may have been removed, none added or changed. *)
Definition only_removes (st st1 : Product.store) : Prop :=
  Product.table st1 ⊆ Product.table st
  /\ Product.last_id st1 = Product.last_id st.

(** The table holds the product exactly as the instance shows it. *)
Definition stored_as (st : Product.store) (p : Product.t) : Prop :=
  exists r, Product.table st !! Product.id p = Some r
            /\ p = shown (Product.id p) r.

(** The three errors of the price rule, in the order of the chain. *)
Definition all_price_errors (v : jsval) : list ExpressValidator.error :=
  [ExpressValidator.mkError "Price must be a number" "price" ExpressValidator.Body v;
   ExpressValidator.mkError "Price is required" "price" ExpressValidator.Body v;
   ExpressValidator.mkError "Price must be greater than 0" "price" ExpressValidator.Body v].

(** Nothing was written, unless the request succeeded. *)
Definition quiet (st : Product.store) (o : outcome) : Prop :=
  fst o = st \/ succeeded o.

(** No row was written and the sequence is where it was or one further,
    unless the request succeeded. *)
Definition quiet_but_sequence (st : Product.store) (o : outcome) : Prop :=
  (Product.table (fst o) = Product.table st
   /\ Product.last_id st <= Product.last_id (fst o) <= Product.last_id st + 1)
  \/ succeeded o.

(** A product as the list shows it. *)
Definition in_list (p : Product.t) : Product.t :=
  Product.mk (Product.id p) (Product.name p) (Product.price p)
             (Product.availability p) None None.

(** The products that the list operation returns for a store. *)
Definition listing (st : Product.store) : list Product.t :=
  omap (fun k => Product.instance ["createdAt"; "updatedAt"] k
                   <$> Product.table st !! k)
       (Product.sort_ids DESC (elements (dom (Product.table st)))).

(** ** The validation rules, one by one *)

Section Rules.
Import ExpressValidator.

Ltac run_rule :=
  cbv [run_chain Router.name_rule Router.price_rule Router.availability_rule
       body param not_ notEmpty isEmpty isNumeric isInt isBoolean custom
       addItem withMessage
       set_last_message chain_items chain_location chain_field negateNext
       app item_validator item_negated item_message run_items item_fails
       field_value String.eqb Ascii.eqb Bool.eqb].

Lemma run_name_rule (req : request) :
  run_chain req Router.name_rule = name_errors (b_name (req_body req)).
Proof.
  unfold name_errors, error_if. run_rule.
  destruct (Validator.isEmpty _); reflexivity.
Qed.

Lemma run_price_rule (req : request) :
  run_chain req Router.price_rule = price_errors (b_price (req_body req)).
Proof.
  unfold price_errors, error_if. run_rule.
  destruct (Validator.isNumeric _), (Validator.isEmpty _), (gt_zero _);
    reflexivity.
Qed.

Lemma run_availability_rule (req : request) :
  run_chain req Router.availability_rule
  = availability_errors (b_availability (req_body req)).
Proof.
  unfold availability_errors, error_if. run_rule.
  destruct (Validator.isBoolean _); reflexivity.
Qed.

Lemma run_id_rule (m : string) (req : request) :
  run_chain req (withMessage m (isInt (param "id"))) = id_errors m (req_id req).
Proof.
  unfold id_errors, error_if. run_rule. simpl toString.
  destruct (Validator.isInt _); reflexivity.
Qed.

Lemma post_validation (req : request) :
  validationResult Router.post_rules req
  = name_errors (b_name (req_body req)) ++ price_errors (b_price (req_body req)).
Proof.
  unfold validationResult, Router.post_rules. simpl flat_map.
  rewrite run_name_rule, run_price_rule, app_nil_r. reflexivity.
Qed.

Lemma put_validation (req : request) :
  validationResult Router.put_rules req
  = id_errors "not a valid id" (req_id req) ++ put_body_errors (req_body req).
Proof.
  unfold validationResult, Router.put_rules, put_body_errors. simpl flat_map.
  rewrite run_id_rule, run_name_rule, run_price_rule, run_availability_rule,
    app_nil_r.
  reflexivity.
Qed.

Lemma get_validation (req : request) :
  validationResult Router.get_rules req
  = id_errors "Id must be an integer" (req_id req).
Proof.
  unfold validationResult, Router.get_rules. simpl flat_map.
  rewrite run_id_rule, app_nil_r. reflexivity.
Qed.

Lemma patch_validation (req : request) :
  validationResult Router.patch_rules req
  = id_errors "not a valid id" (req_id req).
Proof.
  unfold validationResult, Router.patch_rules. simpl flat_map.
  rewrite run_id_rule, app_nil_r. reflexivity.
Qed.

Lemma delete_validation (req : request) :
  validationResult Router.delete_rules req
  = id_errors "not a valid id" (req_id req).
Proof.
  unfold validationResult, Router.delete_rules. simpl flat_map.
  rewrite run_id_rule, app_nil_r. reflexivity.
Qed.

End Rules.

(** ** Path ids: what [isInt] accepts is what the table can look up *)

Section PathId.

Lemma digit_is_decimal (c : ascii) :
  is_digit c
  = match hex_value c with Some d => (d <? 10)%N | None => false end.
Proof. destruct c as [[] [] [] [] [] [] [] []]; vm_compute; reflexivity. Qed.

Lemma radix_value_decimal (u : list ascii) (acc : N) :
  is_Some (radix_value 10 acc u) <-> forallb is_digit u = true.
Proof.
  revert acc. induction u as [|c u IH]; intros acc; simpl.
  - split; eauto.
  - rewrite digit_is_decimal.
    destruct (hex_value c) as [d|]; simpl.
    + destruct (d <? 10)%N; simpl; [apply IH|].
      split; [intros [v Hv]|]; discriminate.
    + split; [intros [v Hv]|]; discriminate.
Qed.

Lemma span_digits (u : list ascii) :
  forallb is_digit u = Validator.is_nil (snd (span is_digit u))
  /\ (forallb is_digit u = true -> fst (span is_digit u) = u).
Proof.
  induction u as [|c u [IH1 IH2]]; simpl; [tauto|].
  destruct (is_digit c) eqn:Hc; simpl.
  - destruct (span is_digit u) as [a b]; simpl in *. split; [exact IH1|].
    intros H. f_equal. auto.
  - split; [reflexivity|discriminate].
Qed.

Lemma isInt_digits (s : string) :
  Validator.isInt s = true <->
  forallb is_digit (Validator.skip_sign (list_ascii_of_string s)) = true
  /\ Validator.skip_sign (list_ascii_of_string s) <> [].
Proof.
  unfold Validator.isInt.
  destruct (span_digits (Validator.skip_sign (list_ascii_of_string s)))
    as [H1 H2].
  destruct (span is_digit _) as [ds r] eqn:Hspan; simpl in *.
  rewrite andb_true_iff, <- H1. split.
  - intros [Hall Hne]. split; [exact Hall|].
    rewrite <- (H2 Hall). destruct ds; [discriminate|congruence].
  - intros [Hall Hne]. split; [exact Hall|].
    rewrite (H2 Hall). destruct (Validator.skip_sign _); [congruence|reflexivity].
Qed.

(** A text that the table reads as an id passes [isInt]. *)
Lemma parse_id_isInt (s : string) (k : Z) :
  Product.parse_id s = Some k -> Validator.isInt s = true.
Proof.
  rewrite isInt_digits. unfold Product.parse_id, radix_literal.
  set (u := Validator.skip_sign (list_ascii_of_string s)).
  pose proof (radix_value_decimal u 0) as Hd.
  destruct u as [|c u'] eqn:Hu; [discriminate|].
  destruct (radix_value 10 0 (c :: u')) as [v|]; [|discriminate].
  intros _. split; [|discriminate]. apply Hd. eauto.
Qed.

(** A text that passes [isInt] and is not read as an id denotes an integer
    outside the range of the id column. *)
Lemma isInt_out_of_range (s : string) :
  Validator.isInt s = true -> Product.parse_id s = None ->
  exists v : N,
    radix_literal 10 (Validator.skip_sign (list_ascii_of_string s)) = Some v
    /\ (Product.id_in_range (Z.of_N v) = false
        \/ Product.id_in_range (- Z.of_N v) = false).
Proof.
  rewrite isInt_digits. unfold Product.parse_id, radix_literal.
  set (u := Validator.skip_sign (list_ascii_of_string s)).
  pose proof (radix_value_decimal u 0) as Hd.
  intros [Hall Hne]. apply Hd in Hall as [v Hv].
  destruct u as [|c u'] eqn:Hu; [congruence|]. rewrite Hv.
  intros H. exists v. split; [reflexivity|].
  destruct (list_ascii_of_string s) as [|[[] [] [] [] [] [] [] []] ?];
    destruct (Product.id_in_range _) eqn:Hr; try discriminate; auto.
Qed.

Lemma id_errors_valid (m s : string) (k : Z) :
  Product.parse_id s = Some k -> id_errors m s = [].
Proof.
  intros H. unfold id_errors. rewrite (parse_id_isInt _ _ H). reflexivity.
Qed.

Lemma findByPk_parsed (st : Product.store) (s : string) (k : Z) :
  Product.parse_id s = Some k ->
  Product.findByPk st s
  = Resolved (Product.instance [] k <$> Product.table st !! k).
Proof. intros H. unfold Product.findByPk. rewrite H. reflexivity. Qed.

End PathId.

(** ** Routes: from the validation result to the handler *)

Section Routes.

Lemma route_valid (chains : list ExpressValidator.chain)
    (handler : Product.store -> request -> outcome)
    (st : Product.store) (req : request) :
  validationResult chains req = [] ->
  Router.route chains handler st req = handler st req.
Proof.
  intros H. unfold Router.route, Router.handleInputErrors. rewrite H.
  reflexivity.
Qed.

Lemma route_invalid (chains : list ExpressValidator.chain)
    (handler : Product.store -> request -> outcome)
    (st : Product.store) (req : request) :
  validationResult chains req <> [] ->
  Router.route chains handler st req
  = (st, Some (mkResponse 400 (Errors (validationResult chains req)))).
Proof.
  intros H. unfold Router.route, Router.handleInputErrors.
  destruct (validationResult chains req); [congruence|reflexivity].
Qed.

Lemma get_reaches_handler (st : Product.store) (req : request) (k : Z) :
  Product.parse_id (req_id req) = Some k ->
  Router.get st req = getProductById st req.
Proof.
  intros H. apply route_valid. rewrite get_validation.
  eapply id_errors_valid, H.
Qed.

Lemma patch_reaches_handler (now : Z) (st : Product.store) (req : request) (k : Z) :
  Product.parse_id (req_id req) = Some k ->
  Router.patch now st req = updateAvailability now st req.
Proof.
  intros H. apply route_valid. rewrite patch_validation.
  eapply id_errors_valid, H.
Qed.

Lemma delete_reaches_handler (st : Product.store) (req : request) (k : Z) :
  Product.parse_id (req_id req) = Some k ->
  Router.delete st req = deleteProduct st req.
Proof.
  intros H. apply route_valid. rewrite delete_validation.
  eapply id_errors_valid, H.
Qed.

Lemma put_reaches_handler (now : Z) (st : Product.store) (req : request) (k : Z) :
  Product.parse_id (req_id req) = Some k ->
  put_body_errors (req_body req) = [] ->
  Router.put now st req = updateProduct now st req.
Proof.
  intros H Hb. apply route_valid. rewrite put_validation, Hb.
  rewrite (id_errors_valid _ _ _ H). reflexivity.
Qed.

End Routes.

(** ** The availability toggle *)

Section Toggle.

(** The row after a toggle: availability inverted, [updatedAt] stamped. *)
Lemma toggle_columns_differ (r : Product.row) (k : Z) :
  Product.same_columns r
    (Product.to_row r
       (Product.set_availability
          (negb (Product.truthy (Product.row_availability r)))
          (Product.instance [] k r)))
  = false.
Proof.
  unfold Product.same_columns. simpl.
  destruct (Product.row_availability r) as [[]|]; simpl; apply andb_false_r.
Qed.

Lemma updateAvailability_existing (now : Z) (st : Product.store)
    (req : request) (k : Z) (r : Product.row) :
  Product.parse_id (req_id req) = Some k ->
  Product.table st !! k = Some r ->
  updateAvailability now st req
  = (Product.mkStore
       (<[k := Product.mkRow (Product.row_name r) (Product.row_price r)
                 (Some (negb (Product.truthy (Product.row_availability r))))
                 (Product.row_createdAt r) now]> (Product.table st))
       (Product.last_id st),
     Some (mkResponse 200
             (Data_product
                (Product.mk k (Product.row_name r) (Product.row_price r)
                   (Some (negb (Product.truthy (Product.row_availability r))))
                   (Some (Product.row_createdAt r)) (Some now))))).
Proof.
  intros Hid Hrow. unfold updateAvailability.
  rewrite (findByPk_parsed _ _ _ Hid), Hrow. simpl.
  unfold Product.save. simpl Product.id. rewrite Hrow.
  rewrite toggle_columns_differ. reflexivity.
Qed.

(** The claim speaks of every existing product.  The create route has no
    rule for the availability and stores the null that the request of
    [null_availability_request] sends; the toggle makes the availability of
    that product true, and a second toggle makes it false: the original
    value, null, is not restored. *)
Lemma C3_counterexample :
  validationResult Router.post_rules null_availability_request = []
  /\ Router.post 5 empty_store null_availability_request
     = (null_product,
        Some (mkResponse 201
                (Data_product
                   (Product.mk 1 "Mouse-Testing" (mkNum false 1 2) None
                               (Some 5) (Some 5)))))
  /\ (exists st1 st2 p1 p2 r2,
        Router.patch 6 null_product toggle_request
        = (st1, Some (mkResponse 200 (Data_product p1)))
        /\ Product.availability p1 = Some true
        /\ Router.patch 7 st1 toggle_request
           = (st2, Some (mkResponse 200 (Data_product p2)))
        /\ Product.availability p2 = Some false
        /\ Product.table st2 !! 1 = Some r2
        /\ Product.row_availability r2 = Some false
        /\ Product.row_availability r2
           <> Product.row_availability
                (Product.mkRow "Mouse-Testing" (mkNum false 1 2) None 5 5)).
Proof.
  split; [reflexivity|]. split; [reflexivity|].
  do 5 eexists.
  split; [reflexivity|]. split; [reflexivity|].
  split; [reflexivity|]. split; [reflexivity|].
  split; [reflexivity|]. split; [reflexivity|discriminate].
Qed.

(** C3, amended: for every existing product, each call of the PATCH route
    sets the stored [availability] to the negation of its truth value, a null
    counting as false.  So for every product whose availability is a boolean
    each call inverts it once and a second call restores the original value;
    for a product whose availability is null the first call makes it true and
    the second false. *)
Theorem C3_toggle_twice_restores (now1 now2 : Z) (st : Product.store)
    (req : request) (k : Z) (r : Product.row) :
  Product.parse_id (req_id req) = Some k ->
  Product.table st !! k = Some r ->
  exists st1 st2 r1 r2 p1 p2,
    Router.patch now1 st req = (st1, Some (mkResponse 200 (Data_product p1)))
    /\ Product.table st1 !! k = Some r1
    /\ Product.row_availability r1
       = Some (negb (Product.truthy (Product.row_availability r)))
    /\ Product.availability p1
       = Some (negb (Product.truthy (Product.row_availability r)))
    /\ Router.patch now2 st1 req = (st2, Some (mkResponse 200 (Data_product p2)))
    /\ Product.table st2 !! k = Some r2
    /\ Product.row_availability r2
       = Some (Product.truthy (Product.row_availability r))
    /\ Product.availability p2
       = Some (Product.truthy (Product.row_availability r))
    /\ (forall b, Product.row_availability r = Some b ->
        Product.row_availability r1 = Some (negb b)
        /\ Product.availability p1 = Some (negb b)
        /\ Product.row_availability r2 = Product.row_availability r
        /\ Product.availability p2 = Product.row_availability r).
Proof.
  intros Hid Hrow.
  pose proof (updateAvailability_existing now1 st req k r Hid Hrow) as H1.
  rewrite <- (patch_reaches_handler now1 st req k Hid) in H1.
  set (r1 := Product.mkRow (Product.row_name r) (Product.row_price r)
               (Some (negb (Product.truthy (Product.row_availability r))))
               (Product.row_createdAt r) now1) in *.
  set (st1 := Product.mkStore (<[k := r1]> (Product.table st))
                (Product.last_id st)) in *.
  assert (Hrow1 : Product.table st1 !! k = Some r1)
    by (apply lookup_insert_eq).
  pose proof (updateAvailability_existing now2 st1 req k r1 Hid Hrow1) as H2.
  rewrite <- (patch_reaches_handler now2 st1 req k Hid) in H2.
  do 6 eexists.
  split; [exact H1|]. split; [exact Hrow1|].
  split; [reflexivity|]. split; [reflexivity|].
  split; [exact H2|]. split; [apply lookup_insert_eq|].
  simpl. rewrite negb_involutive.
  split; [reflexivity|]. split; [reflexivity|].
  intros b Hb. rewrite Hb. auto.
Qed.

Lemma C3_toggle_twice_restores_witness :
  exists st1 st2 r1 r2 p1 p2,
    Router.patch 6 one_product toggle_request
      = (st1, Some (mkResponse 200 (Data_product p1)))
    /\ Product.table st1 !! 1 = Some r1
    /\ Product.row_availability r1 = Some false
    /\ Product.availability p1 = Some false
    /\ Router.patch 7 st1 toggle_request
      = (st2, Some (mkResponse 200 (Data_product p2)))
    /\ Product.table st2 !! 1 = Some r2
    /\ Product.row_availability r2 = Some true
    /\ Product.availability p2 = Some true.
Proof.
  destruct (C3_toggle_twice_restores 6 7 one_product toggle_request 1
              mouse_row eq_refl eq_refl)
    as (st1 & st2 & r1 & r2 & p1 & p2 & H1 & Hr1 & _ & _ & H2 & Hr2 & _ & _ & Hb).
  destruct (Hb true eq_refl) as (Ha1 & Hp1 & Ha2 & Hp2).
  exists st1, st2, r1, r2, p1, p2.
  split; [exact H1|]. split; [exact Hr1|]. split; [exact Ha1|].
  split; [exact Hp1|]. split; [exact H2|]. split; [exact Hr2|].
  split; [exact Ha2|exact Hp2].
Defined.

End Toggle.

(** ** The list of all products *)

Section Listing.

#[local] Instance flip_le_total : Total (flip Z.le).
Proof. intros x y. unfold flip. lia. Qed.

Lemma instance_listed (k : Z) (r : Product.row) :
  Product.instance ["createdAt"; "updatedAt"] k r = listed k r.
Proof. reflexivity. Qed.

Lemma instance_shown (k : Z) (r : Product.row) :
  Product.instance [] k r = shown k r.
Proof. reflexivity. Qed.

(** Sorted without repetition is strictly sorted. *)
Lemma sorted_nodup_strict (l : list Z) :
  StronglySorted (flip Z.le) l -> NoDup l -> StronglySorted (flip Z.lt) l.
Proof.
  induction 1 as [|x l Hs IH Hx]; intros Hnd; constructor.
  - apply IH. by apply NoDup_cons_1_2 in Hnd.
  - apply NoDup_cons_1_1 in Hnd.
    rewrite Forall_forall in Hx |- *. intros y Hy.
    specialize (Hx y Hy). unfold flip in *.
    assert (y <> x) by (intros ->; done). lia.
Qed.

Lemma sorted_by_id (f : Z -> Product.t) (l : list Z) :
  (forall k, Product.id (f k) = k) ->
  StronglySorted (flip Z.lt) l -> StronglySorted id_desc (f <$> l).
Proof.
  intros Hf. apply StronglySorted_fmap. intros x y Hxy.
  unfold id_desc, flip in *. by rewrite !Hf.
Qed.

(** Looking up ids that are all in use loses none of them. *)
Lemma omap_lookup_all (m : gmap Z Product.row) (exclude : list string)
    (l : list Z) :
  (forall k, k ∈ l -> is_Some (m !! k)) ->
  omap (fun k => Product.instance exclude k <$> m !! k) l
  = (fun k => Product.instance exclude k (default mouse_row (m !! k))) <$> l.
Proof.
  induction l as [|k l IH]; intros Hl; [reflexivity|].
  csimpl. destruct (Hl k) as [r Hr]; [left|].
  rewrite Hr. csimpl. rewrite IH; [reflexivity|].
  intros j Hj. apply Hl. by right.
Qed.

Lemma sorted_ids_spec (m : gmap Z Product.row) :
  let ids := Product.sort_ids DESC (elements (dom m)) in
  (forall k, k ∈ ids <-> is_Some (m !! k))
  /\ StronglySorted (flip Z.lt) ids
  /\ length ids = size m.
Proof.
  simpl. set (ids := merge_sort (flip Z.le) (elements (dom m))).
  assert (Hp : ids ≡ₚ elements (dom m)) by apply merge_sort_Permutation.
  split; [|split].
  - intros k. rewrite Hp, elem_of_elements. apply elem_of_dom.
  - apply sorted_nodup_strict.
    + apply StronglySorted_merge_sort; apply _.
    + rewrite Hp. apply NoDup_elements.
  - rewrite Hp. rewrite <- size_dom. reflexivity.
Qed.

Lemma getProducts_listing (st : Product.store) (req : request) :
  exists products,
    getProducts st req = (st, Some (mkResponse 200 (Data_products products)))
    /\ (forall k r, Product.table st !! k = Some r -> listed k r ∈ products)
    /\ Forall (fun p => Product.createdAt p = None
                        /\ Product.updatedAt p = None) products.
Proof.
  destruct (sorted_ids_spec (Product.table st)) as (Hin & _ & _).
  set (ids := Product.sort_ids DESC (elements (dom (Product.table st)))) in *.
  exists ((fun k => listed k (default mouse_row (Product.table st !! k))) <$> ids).
  split; [|split].
  - unfold getProducts, Product.findAll. fold ids.
    rewrite omap_lookup_all by (intros k Hk; by apply Hin).
    reflexivity.
  - intros k r Hr. apply list_elem_of_fmap. exists k. rewrite Hr.
    split; [done|]. apply Hin. eauto.
  - rewrite Forall_forall. intros p Hp.
    apply list_elem_of_fmap in Hp as (k & -> & _). split; reflexivity.
Qed.

(** C8: the list operation answers 200 with [{ data: [...] }]; the list holds
    every stored product exactly once and nothing else, in strictly
    descending order of the ids, and each element comes without [createdAt]
    and [updatedAt]. *)
Theorem C8_list_all_descending (st : Product.store) (req : request) :
  exists products,
    Router.get_all st req
      = (st, Some (mkResponse 200 (Data_products products)))
    /\ (forall p, p ∈ products <->
          exists k r, Product.table st !! k = Some r /\ p = listed k r)
    /\ StronglySorted id_desc products
    /\ length products = size (Product.table st)
    /\ Forall (fun p => Product.createdAt p = None
                        /\ Product.updatedAt p = None) products.
Proof.
  destruct (sorted_ids_spec (Product.table st)) as (Hin & Hsorted & Hlen).
  set (ids := Product.sort_ids DESC (elements (dom (Product.table st)))) in *.
  exists ((fun k => listed k (default mouse_row (Product.table st !! k))) <$> ids).
  assert (Hlist : forall p,
    p ∈ (fun k => listed k (default mouse_row (Product.table st !! k))) <$> ids
    <-> exists k r, Product.table st !! k = Some r /\ p = listed k r).
  { intros p. rewrite list_elem_of_fmap. split.
    - intros (k & -> & Hk). apply Hin in Hk as [r Hr].
      exists k, r. by rewrite Hr.
    - intros (k & r & Hr & ->). exists k. rewrite Hr. split; [done|].
      apply Hin. eauto. }
  split; [|split; [exact Hlist|split; [|split]]].
  - unfold Router.get_all, Router.route, Router.handleInputErrors. simpl.
    unfold getProducts, Product.findAll. fold ids.
    rewrite omap_lookup_all by (intros k Hk; by apply Hin).
    reflexivity.
  - apply sorted_by_id; [reflexivity|exact Hsorted].
  - rewrite length_fmap. exact Hlen.
  - rewrite Forall_forall. intros p Hp.
    apply Hlist in Hp as (k & r & _ & ->). split; reflexivity.
Qed.

End Listing.

(** ** Numbers as the rules read them *)

Section Rendering.

Lemma chars_app (a b : string) : chars (a +:+ b) = chars a ++ chars b.
Proof.
  unfold chars. induction a as [|c a IH]; simpl; [reflexivity|]. by rewrite IH.
Qed.

Lemma chars_length (a : string) : length (chars a) = String.length a.
Proof.
  unfold chars. induction a as [|c a IH]; simpl; [reflexivity|]. by rewrite IH.
Qed.

Lemma chars_substring (n m : nat) (s : string) :
  chars (substring n m s) = take m (drop n (chars s)).
Proof.
  unfold chars. revert n m. induction s as [|c s IH]; intros n m.
  - destruct n, m; reflexivity.
  - destruct n as [|n].
    + destruct m as [|m]; simpl; [reflexivity|]. f_equal.
      rewrite (IH 0%nat m). reflexivity.
    + simpl. apply IH.
Qed.

Lemma chars_zeros (n : nat) : forallb is_digit (chars (zeros n)) = true.
Proof. induction n as [|n IH]; simpl; [reflexivity|exact IH]. Qed.

Lemma uint_digits (u : Decimal.uint) :
  forallb is_digit (chars (NilEmpty.string_of_uint u)) = true.
Proof. induction u; simpl; try reflexivity; exact IHu. Qed.

Lemma digits_of_digits (m : N) : forallb is_digit (chars (digits_of m)) = true.
Proof. apply uint_digits. Qed.

Lemma digits_of_nonempty (m : N) : m <> 0%N -> chars (digits_of m) <> [].
Proof.
  intros Hm. destruct m as [|p]; [congruence|].
  unfold digits_of. simpl N.to_uint.
  pose proof (DecimalPos.Unsigned.to_uint_nonnil p) as Hn.
  destruct (Pos.to_uint p); [congruence| discriminate ..].
Qed.

Lemma forallb_take (p : ascii -> bool) (n : nat) (l : list ascii) :
  forallb p l = true -> forallb p (take n l) = true.
Proof.
  revert n. induction l as [|c l IH]; intros [|n] H; simpl in *; try reflexivity.
  apply andb_true_iff in H as [-> H]. simpl. by apply IH.
Qed.

Lemma forallb_drop (p : ascii -> bool) (n : nat) (l : list ascii) :
  forallb p l = true -> forallb p (drop n l) = true.
Proof.
  revert n. induction l as [|c l IH]; intros [|n] H; simpl in *; try done.
  apply andb_true_iff in H as [_ H]. by apply IH.
Qed.

Lemma span_all_digits (a : list ascii) :
  forallb is_digit a = true -> span is_digit a = (a, []).
Proof.
  induction a as [|c a IH]; simpl; [reflexivity|].
  intros H. apply andb_true_iff in H as [-> H]. by rewrite IH.
Qed.

Lemma span_digits_then (a : list ascii) (c : ascii) (b : list ascii) :
  forallb is_digit a = true -> is_digit c = false ->
  span is_digit (a ++ c :: b) = (a, c :: b).
Proof.
  induction a as [|d a IH]; simpl; intros H Hc.
  - by rewrite Hc.
  - apply andb_true_iff in H as [-> H]. by rewrite IH.
Qed.

Lemma unsigned_numeric_digits (a : list ascii) :
  forallb is_digit a = true -> a <> [] -> Validator.unsigned_numeric a = true.
Proof.
  intros H Hne. unfold Validator.unsigned_numeric.
  rewrite span_all_digits by done. by destruct a.
Qed.

Lemma unsigned_numeric_point (a b : list ascii) :
  forallb is_digit a = true -> forallb is_digit b = true -> b <> [] ->
  Validator.unsigned_numeric (a ++ "."%char :: b) = true.
Proof.
  intros Ha Hb Hne. unfold Validator.unsigned_numeric.
  rewrite span_digits_then by done.
  rewrite span_all_digits by done. by destruct b.
Qed.

(** A text that starts with a digit has no sign to skip. *)
Lemma skip_sign_digit (c : ascii) (l : list ascii) :
  is_digit c = true -> Validator.skip_sign (c :: l) = c :: l.
Proof.
  destruct c as [[] [] [] [] [] [] [] []]; try reflexivity; discriminate.
Qed.

Lemma isNumeric_signed (neg : bool) (text : string) (c : ascii) (l : list ascii) :
  chars text = c :: l -> is_digit c = true ->
  Validator.unsigned_numeric (c :: l) = true ->
  Validator.isNumeric (if neg then "-" +:+ text else text) = true.
Proof.
  intros Htext Hc Hnum. unfold Validator.isNumeric.
  destruct neg.
  - change (list_ascii_of_string ("-" +:+ text)) with ("-"%char :: chars text).
    simpl Validator.skip_sign. by rewrite Htext.
  - fold (chars text). rewrite Htext, skip_sign_digit by done. exact Hnum.
Qed.

(** A text that [isNumeric] accepts is not empty. *)
Lemma isNumeric_not_empty (s : string) :
  Validator.isNumeric s = true -> Validator.isEmpty s = false.
Proof. destruct s; [discriminate|reflexivity]. Qed.

(** A number written without an exponent passes [isNumeric]. *)
Lemma Number_toString_plain (x : jsnum) :
  plain_notation x -> Validator.isNumeric (Number_toString x) = true.
Proof.
  intros Hplain. unfold Number_toString.
  destruct (num_mant x =? 0)%N eqn:Hzero; [reflexivity|].
  apply N.eqb_neq in Hzero.
  destruct Hplain as [Hm | Hrange]; [congruence|].
  unfold point_position in Hrange.
  pose proof (digits_of_digits (num_mant x)) as Hd.
  pose proof (digits_of_nonempty (num_mant x) Hzero) as Hne.
  pose proof (chars_length (digits_of (num_mant x))) as Hlen.
  set (s := digits_of (num_mant x)) in *.
  destruct (chars s) as [|c ds] eqn:Hs; [congruence|]. clear Hne.
  simpl in Hd. apply andb_true_iff in Hd as [Hc Hds].
  set (k := Z.of_nat (String.length s)) in *.
  set (n := num_exp x + k) in *.
  assert (Hk : k = Z.of_nat (S (length ds))) by (unfold k; by rewrite <- Hlen).
  destruct ((k <=? n) && (n <=? 21)) eqn:H1.
  { apply isNumeric_signed with c (ds ++ chars (zeros (Z.to_nat (n - k)))).
    - rewrite chars_app. by rewrite Hs.
    - exact Hc.
    - apply unsigned_numeric_digits; [|done].
      simpl. rewrite Hc, forallb_app, Hds. simpl. apply chars_zeros. }
  destruct ((0 <? n) && (n <=? 21)) eqn:H2.
  { apply andb_true_iff in H2 as [Hn0 Hn21]. apply Z.ltb_lt in Hn0.
    assert (Hnk : n < k).
    { apply andb_false_iff in H1 as [H1|H1]; [apply Z.leb_gt in H1; lia|].
      congruence. }
    destruct (Z.to_nat n) as [|n'] eqn:Hn'; [lia|].
    apply isNumeric_signed with c
      (take n' ds ++ "."%char :: take (Z.to_nat (k - n)) (drop n' ds)).
    - rewrite !chars_app, !chars_substring. rewrite Hs. reflexivity.
    - exact Hc.
    - change (c :: take n' ds ++ "."%char :: take (Z.to_nat (k - n)) (drop n' ds))
        with ((c :: take n' ds) ++ "."%char :: take (Z.to_nat (k - n)) (drop n' ds)).
      apply unsigned_numeric_point.
      + simpl. rewrite Hc. simpl. by apply forallb_take.
      + by apply forallb_take, forallb_drop.
      + assert (Hl : (0 < length (take (Z.to_nat (k - n)) (drop n' ds)))%nat).
        { rewrite length_take, length_drop. lia. }
        destruct (take _ _); [simpl in Hl; lia|done]. }
  destruct ((-6 <? n) && (n <=? 0)) eqn:H3.
  { apply isNumeric_signed with "0"%char
      ("."%char :: chars (zeros (Z.to_nat (- n))) ++ c :: ds).
    - rewrite !chars_app. by rewrite Hs.
    - reflexivity.
    - change ("0"%char :: "."%char :: chars (zeros (Z.to_nat (- n))) ++ c :: ds)
        with (["0"%char] ++ "."%char :: (chars (zeros (Z.to_nat (- n))) ++ c :: ds)).
      apply unsigned_numeric_point; [reflexivity| |].
      + rewrite forallb_app, chars_zeros. simpl. by rewrite Hc.
      + by destruct (chars (zeros (Z.to_nat (- n)))). }
  exfalso.
  apply andb_false_iff in H1, H2, H3.
  rewrite !Z.leb_gt, !Z.ltb_ge in *. lia.
Qed.

End Rendering.

(** ** The rules of the create and update routes *)

Section CreateRules.
Import ExpressValidator.

Lemma name_errors_text (s : string) : s <> "" -> name_errors (JStr s) = [].
Proof. intros Hs. destruct s; [congruence|reflexivity]. Qed.

Lemma gt_zero_number (x : jsnum) : gt_zero (JNum x) = negb (num_le_zero x).
Proof.
  unfold gt_zero, num_le_zero.
  destruct (num_neg x), (num_mant x =? 0)%N; reflexivity.
Qed.

(** C1: on every create request the name is validated as non-empty.  When
    [name] is missing, null or the empty string, the name rule fails with the
    one error "Name is required", and the POST route answers 400 with that
    error first (the errors of the price rule follow) and writes nothing.
    When [name] is a non-empty string the name rule passes: no error of the
    request is about the name, and the route goes on as the price rule alone
    decides. *)
Theorem C1_name_is_required (now : Z) (st : Product.store) (req : request) :
  (b_name (req_body req) = JUndefined \/ b_name (req_body req) = JNull
   \/ b_name (req_body req) = JStr "" ->
   run_chain req Router.name_rule
     = [mkError "Name is required" "name" Body (b_name (req_body req))]
   /\ In (mkError "Name is required" "name" Body (b_name (req_body req)))
         (validationResult Router.post_rules req)
   /\ Router.post now st req
      = (st, Some (mkResponse 400
                     (Errors (mkError "Name is required" "name" Body
                                (b_name (req_body req))
                              :: run_chain req Router.price_rule)))))
  /\ (forall s, b_name (req_body req) = JStr s -> s <> "" ->
      run_chain req Router.name_rule = []
      /\ (forall e, In e (validationResult Router.post_rules req) ->
                    err_path e = "price")
      /\ Router.post now st req
         = Router.handleInputErrors (run_chain req Router.price_rule)
             (createProduct now) st req).
Proof.
  assert (Hpost : Router.post now st req
                  = Router.handleInputErrors
                      (run_chain req Router.name_rule
                       ++ run_chain req Router.price_rule)
                      (createProduct now) st req).
  { unfold Router.post, Router.route, validationResult, Router.post_rules.
    simpl flat_map. by rewrite app_nil_r. }
  rewrite Hpost, post_validation, run_name_rule, run_price_rule. split.
  - intros H.
    assert (Hn : name_errors (b_name (req_body req))
                 = [mkError "Name is required" "name" Body (b_name (req_body req))]).
    { destruct H as [-> | [-> | ->]]; reflexivity. }
    rewrite Hn. split; [reflexivity|]. split; [|reflexivity].
    apply in_or_app. left. by left.
  - intros s Hs Hne. rewrite Hs, (name_errors_text s Hne).
    split; [reflexivity|]. split; [|reflexivity].
    simpl. unfold price_errors, error_if.
    intros e He.
    repeat (apply in_app_or in He as [He | He]);
      (destruct (_ : bool); simpl in He; [destruct He as [<- | []]|destruct He]);
      reflexivity.
Qed.

Lemma C1_name_is_required_witness :
  (run_chain nameless_request Router.name_rule
     = [mkError "Name is required" "name" Body JUndefined]
   /\ Router.post 5 empty_store nameless_request
      = (empty_store,
         Some (mkResponse 400
                 (Errors [mkError "Name is required" "name" Body JUndefined]))))
  /\ run_chain mouse_request Router.name_rule = []
  /\ Router.post 5 empty_store mouse_request
     = createProduct 5 empty_store mouse_request.
Proof.
  destruct (C1_name_is_required 5 empty_store nameless_request) as [Hmiss _].
  destruct (C1_name_is_required 5 empty_store mouse_request) as [_ Hname].
  destruct Hmiss as (Hrule & _ & Hpost); [left; reflexivity|].
  destruct (Hname "Mouse-Testing") as (Hpass & _ & Hgo);
    [reflexivity|discriminate|].
  split; [split; [exact Hrule|exact Hpost]|].
  split; [exact Hpass|exact Hgo].
Defined.

(** The price -0.0000001 is a number and is not above zero, yet the create
    route answers with two errors: its text is "-1e-7", which [isNumeric]
    refuses. *)
Lemma C6_counterexample :
  num_le_zero tiny_negative = true
  /\ canonical tiny_negative
  /\ Number_toString tiny_negative = "-1e-7"
  /\ Validator.isNumeric (toString (JNum tiny_negative)) = false
  /\ Router.post 5 empty_store tiny_price_request
     = (empty_store,
        Some (mkResponse 400
                (Errors [mkError "Price must be a number" "price" Body
                           (JNum tiny_negative);
                         mkError "Price must be greater than 0" "price" Body
                           (JNum tiny_negative)]))).
Proof.
  split; [reflexivity|]. split; [vm_compute; discriminate|].
  split; [reflexivity|]. split; reflexivity.
Qed.

(** C6, amended: for every create request with a non-empty name whose price
    is a number not above zero that is written without an exponent (zero, or
    1e-6 <= |price| < 1e21), the route answers 400 with exactly one error,
    "Price must be greater than 0"; the numeric and the non-empty rule pass
    on such a price. *)
Theorem C6_plain_price_not_above_zero (now : Z) (st : Product.store)
    (req : request) (s : string) (x : jsnum) :
  b_name (req_body req) = JStr s -> s <> "" ->
  b_price (req_body req) = JNum x ->
  num_le_zero x = true ->
  plain_notation x ->
  Router.post now st req
    = (st, Some (mkResponse 400
                   (Errors [mkError "Price must be greater than 0" "price" Body
                              (JNum x)])))
  /\ Validator.isNumeric (toString (JNum x)) = true
  /\ Validator.isEmpty (toString (JNum x)) = false.
Proof.
  intros Hname Hs Hprice Hle Hplain.
  pose proof (Number_toString_plain x Hplain) as Hnum.
  pose proof (isNumeric_not_empty _ Hnum) as Hne.
  split; [|split; assumption].
  assert (Herr : validationResult Router.post_rules req
                 = [mkError "Price must be greater than 0" "price" Body (JNum x)]).
  { rewrite post_validation, Hname, Hprice, (name_errors_text s Hs).
    unfold price_errors. simpl toString.
    rewrite Hnum, Hne, gt_zero_number, Hle. reflexivity. }
  unfold Router.post. rewrite route_invalid; rewrite Herr; [reflexivity|discriminate].
Qed.

Lemma C6_plain_price_not_above_zero_witness :
  Router.post 5 empty_store zero_price_request
    = (empty_store,
       Some (mkResponse 400
               (Errors [mkError "Price must be greater than 0" "price" Body
                          (JNum (mkNum false 0 0))])))
  /\ Validator.isNumeric (toString (JNum (mkNum false 0 0))) = true
  /\ Validator.isEmpty (toString (JNum (mkNum false 0 0))) = false.
Proof.
  apply (C6_plain_price_not_above_zero 5 empty_store zero_price_request
           "Monitor-Testing" (mkNum false 0 0)).
  - reflexivity.
  - discriminate.
  - reflexivity.
  - reflexivity.
  - left. reflexivity.
Defined.

(** An update request with an id that is no integer and an empty body gets
    six errors, not one. *)
Lemma C7_counterexample :
  Validator.isInt (req_id bad_id_empty_request) = false
  /\ exists errors,
       Router.put 5 one_product bad_id_empty_request
         = (one_product, Some (mkResponse 400 (Errors errors)))
       /\ length errors = 6%nat.
Proof.
  split; [reflexivity|]. eexists. split; reflexivity.
Qed.

(** C7, amended: when the path id does not pass [isInt], every id-based route
    answers 400 and leaves the store alone.  Get-by-id, patch and delete carry
    a single error, "Id must be an integer" for get-by-id and "not a valid id"
    for patch and delete.  Update carries "not a valid id" first, followed by
    the errors of its body rules; it is the single error when the body passes
    them. *)
Theorem C7_invalid_id (now : Z) (st : Product.store) (req : request) :
  Validator.isInt (req_id req) = false ->
  let id_error m := mkError m "id" Params (JStr (req_id req)) in
  Router.get st req
    = (st, Some (mkResponse 400 (Errors [id_error "Id must be an integer"])))
  /\ Router.patch now st req
     = (st, Some (mkResponse 400 (Errors [id_error "not a valid id"])))
  /\ Router.delete st req
     = (st, Some (mkResponse 400 (Errors [id_error "not a valid id"])))
  /\ Router.put now st req
     = (st, Some (mkResponse 400
                    (Errors (id_error "not a valid id"
                             :: put_body_errors (req_body req)))))
  /\ (put_body_errors (req_body req) = [] ->
      Router.put now st req
      = (st, Some (mkResponse 400 (Errors [id_error "not a valid id"])))).
Proof.
  intros Hid id_error.
  assert (Hm : forall m, id_errors m (req_id req) = [id_error m]).
  { intros m. unfold id_errors. rewrite Hid. reflexivity. }
  assert (Hput : Router.put now st req
     = (st, Some (mkResponse 400
                    (Errors (id_error "not a valid id"
                             :: put_body_errors (req_body req)))))).
  { unfold Router.put.
    rewrite route_invalid; rewrite put_validation, Hm; [reflexivity|discriminate]. }
  unfold Router.get, Router.patch, Router.delete.
  rewrite !route_invalid;
    rewrite ?get_validation, ?patch_validation, ?delete_validation, ?Hm;
    try discriminate.
  do 3 (split; [reflexivity|]). split; [exact Hput|].
  intros Hb. rewrite Hput, Hb. reflexivity.
Qed.

Lemma C7_invalid_id_witness :
  let id_error m := mkError m "id" Params (JStr "not-valid-url") in
  Router.get one_product bad_id_request
    = (one_product, Some (mkResponse 400 (Errors [id_error "Id must be an integer"])))
  /\ Router.patch 5 one_product bad_id_request
     = (one_product, Some (mkResponse 400 (Errors [id_error "not a valid id"])))
  /\ Router.delete one_product bad_id_request
     = (one_product, Some (mkResponse 400 (Errors [id_error "not a valid id"])))
  /\ Router.put 5 one_product bad_id_request
     = (one_product, Some (mkResponse 400 (Errors [id_error "not a valid id"]))).
Proof.
  destruct (C7_invalid_id 5 one_product bad_id_request eq_refl)
    as (Hget & Hpatch & Hdel & _ & Hput).
  intros id_error.
  split; [exact Hget|]. split; [exact Hpatch|]. split; [exact Hdel|].
  apply Hput. reflexivity.
Defined.

End CreateRules.

(** ** Which numbers the numeric rule accepts *)

Section NumericRule.
Import ExpressValidator.

Lemma span_spec (p : ascii -> bool) (l : list ascii) :
  l = fst (span p l) ++ snd (span p l) /\ forallb p (fst (span p l)) = true.
Proof.
  induction l as [|c l [IH1 IH2]]; simpl; [done|].
  destruct (p c) eqn:Hc; [|done].
  destruct (span p l) as [a b]; simpl in *. rewrite Hc, IH2.
  split; [by f_equal|reflexivity].
Qed.

Lemma digits_numeric (l : list ascii) :
  forallb is_digit l = true -> forallb numeric_char l = true.
Proof.
  induction l as [|c l IH]; simpl; [done|].
  intros H. apply andb_true_iff in H as [Hc Hl].
  unfold numeric_char at 1. rewrite Hc. simpl. by apply IH.
Qed.

Lemma unsigned_numeric_chars (l : list ascii) :
  Validator.unsigned_numeric l = true -> forallb numeric_char l = true.
Proof.
  unfold Validator.unsigned_numeric.
  destruct (span_spec is_digit l) as [Hl Hip].
  destruct (span is_digit l) as [ip r]; simpl in *.
  destruct r as [|c f].
  - intros _. rewrite Hl, app_nil_r. by apply digits_numeric.
  - destruct (Ascii.eqb_spec c ".") as [-> | Hne].
    + destruct (span_spec is_digit f) as [Hf Hfp].
      destruct (span is_digit f) as [fp r']; simpl in *.
      destruct r'; [|discriminate]. intros _.
      rewrite Hl, Hf, app_nil_r, forallb_app. simpl.
      by rewrite !digits_numeric.
    + destruct c as [[] [] [] [] [] [] [] []]; try discriminate.
      congruence.
Qed.

Lemma skip_sign_keeps (c : ascii) (l : list ascii) :
  numeric_char c = false -> c <> "+"%char -> c <> "-"%char ->
  In c l -> In c (Validator.skip_sign l).
Proof.
  intros Hc Hp Hm Hin. destruct l as [|d l]; [done|].
  destruct Hin as [-> | Hin].
  - destruct c as [[] [] [] [] [] [] [] []]; simpl; auto; congruence.
  - destruct d as [[] [] [] [] [] [] [] []]; simpl; auto.
Qed.

(** A text with the letter e in it is not numeric. *)
Lemma isNumeric_without_e (s : string) :
  In "e"%char (chars s) -> Validator.isNumeric s = false.
Proof.
  intros He. unfold Validator.isNumeric.
  destruct (Validator.unsigned_numeric _) eqn:Hnum; [|reflexivity].
  apply unsigned_numeric_chars in Hnum.
  rewrite forallb_forall in Hnum.
  specialize (Hnum "e"%char).
  assert (numeric_char "e" = true); [|discriminate].
  apply Hnum. apply skip_sign_keeps; try done. 
Qed.

Lemma exponent_part_e (e : Z) : In "e"%char (chars (exponent_part e)).
Proof. left. reflexivity. Qed.

Lemma chars_in_app_r (a b : string) (c : ascii) :
  In c (chars b) -> In c (chars (a +:+ b)).
Proof. intros H. rewrite chars_app. apply in_or_app. by right. Qed.

(** A number outside the plain range is written with the letter e. *)
Lemma Number_toString_has_e (x : jsnum) :
  ~ plain_notation x -> In "e"%char (chars (Number_toString x)).
Proof.
  intros Hnot. unfold plain_notation, point_position in Hnot.
  unfold Number_toString.
  destruct (num_mant x =? 0)%N eqn:Hzero.
  { apply N.eqb_eq in Hzero. tauto. }
  set (s := digits_of (num_mant x)) in *.
  set (k := Z.of_nat (String.length s)) in *.
  set (n := num_exp x + k) in *.
  assert (Hk : 1 <= k).
  { pose proof (digits_of_nonempty (num_mant x)) as Hne.
    apply N.eqb_neq in Hzero. specialize (Hne Hzero).
    pose proof (chars_length (digits_of (num_mant x))) as Hlen.
    fold s in Hne, Hlen. unfold k. rewrite <- Hlen.
    destruct (chars s); [done|simpl; lia]. }
  assert (Hrange : ~ (-6 < n <= 21)) by tauto.
  destruct ((k <=? n) && (n <=? 21)) eqn:H1.
  { apply andb_true_iff in H1 as [H1 H2]. lia. }
  destruct ((0 <? n) && (n <=? 21)) eqn:H2.
  { apply andb_true_iff in H2 as [H2 H3]. lia. }
  destruct ((-6 <? n) && (n <=? 0)) eqn:H3.
  { apply andb_true_iff in H3 as [H3 H4]. lia. }
  assert (Hbody : forall pre, In "e"%char (chars (pre +:+ exponent_part (n - 1)))).
  { intros pre. apply chars_in_app_r, exponent_part_e. }
  destruct (k =? 1); destruct (num_neg x);
    repeat first [ apply Hbody | apply chars_in_app_r ].
Qed.

(** A number written with an exponent fails [isNumeric]. *)
Lemma Number_toString_exponent (x : jsnum) :
  ~ plain_notation x -> Validator.isNumeric (Number_toString x) = false.
Proof. intros Hnot. by apply isNumeric_without_e, Number_toString_has_e. Qed.

Lemma Number_toString_not_empty (x : jsnum) :
  Validator.isEmpty (Number_toString x) = false.
Proof.
  destruct (decide (plain_notation x)) as [Hp | Hp].
  - apply isNumeric_not_empty, Number_toString_plain, Hp.
  - pose proof (Number_toString_has_e x Hp) as H.
    destruct (Number_toString x); [destruct H|reflexivity].
Qed.

(** A JSON number passes the numeric rule exactly when it is written
    without an exponent. *)
Theorem numeric_rule_accepts_plain_numbers_only (x : jsnum) :
  Validator.isNumeric (toString (JNum x)) = true <-> plain_notation x.
Proof.
  simpl. split.
  - intros Hnum.
    destruct (decide (num_mant x = 0%N)) as [Hz | Hz]; [by left|].
    destruct (decide (-6 < point_position x <= 21)) as [Hr | Hr]; [by right|].
    rewrite Number_toString_exponent in Hnum; [discriminate|].
    intros [H | H]; contradiction.
  - apply Number_toString_plain.
Qed.

End NumericRule.

(** ** Creating a product *)

Section Create.
Import ExpressValidator.











(** The handler, once the columns have read the body and the id is free. *)
Lemma createProduct_reads (now : Z) (st : Product.store) (req : request)
    (n : string) (x : jsnum) (a : option bool) (c k next : Z) :
  Product.text_column (b_name (req_body req)) = Some n ->
  Product.numeric_column (b_price (req_body req)) = Some x ->
  Product.boolean_column (Some true) (b_availability (req_body req)) = Some a ->
  Product.date_column now (b_createdAt (req_body req)) = Some c ->
  Product.new_id st (b_id (req_body req)) = Some (k, next) ->
  Product.id_in_range k = true ->
  Product.table st !! k = None ->
  createProduct now st req
  = (Product.mkStore (<[k := Product.mkRow n x a c now]> (Product.table st)) next,
     Some (mkResponse 201
             (Data_product (shown k (Product.mkRow n x a c now))))).
Proof.
  intros Hn Hx Ha Hc Hk Hr Hfree. unfold createProduct, Product.create.
  rewrite Hn, Hx, Ha, Hc, Hk, Hr, Hfree. reflexivity.
Qed.




End Create.

(** ** One product: found or missing *)

Section StoredProduct.

Variables (st : Product.store) (req : request) (k : Z).
Hypothesis Hid : Product.parse_id (req_id req) = Some k.

Lemma getProductById_found (r : Product.row) :
  Product.table st !! k = Some r ->
  getProductById st req = (st, Some (mkResponse 200 (Data_product (shown k r)))).
Proof.
  intros Hr. unfold getProductById.
  by rewrite (findByPk_parsed st _ k Hid), Hr.
Qed.

Lemma deleteProduct_found (r : Product.row) :
  Product.table st !! k = Some r ->
  deleteProduct st req
  = (Product.mkStore (delete k (Product.table st)) (Product.last_id st),
     Some (mkResponse 200 (Data_text "Product deleted"))).
Proof.
  intros Hr. unfold deleteProduct.
  by rewrite (findByPk_parsed st _ k Hid), Hr.
Qed.

Lemma getProductById_missing :
  Product.table st !! k = None -> getProductById st req = not_found st.
Proof.
  intros Hr. unfold getProductById.
  by rewrite (findByPk_parsed st _ k Hid), Hr.
Qed.



Lemma deleteProduct_missing :
  Product.table st !! k = None -> deleteProduct st req = not_found st.
Proof.
  intros Hr. unfold deleteProduct.
  by rewrite (findByPk_parsed st _ k Hid), Hr.
Qed.

End StoredProduct.

Section ClaimsOnOneProduct.

(** C9: for every existing product the PATCH route writes that product's row
    and no other: the new row has the same [name], [price] and [createdAt],
    stays under the same id, and has [availability] inverted (the negation
    of its truth value, a null counting as false; [updatedAt] is stamped); every other product is as it was and the set of ids is the
    same. *)
Theorem C9_toggle_changes_availability_only (now : Z) (st : Product.store)
    (req : request) (k : Z) (r : Product.row) :
  Product.parse_id (req_id req) = Some k ->
  Product.table st !! k = Some r ->
  exists r1 p1,
    Router.patch now st req
      = (Product.mkStore (<[k := r1]> (Product.table st)) (Product.last_id st),
         Some (mkResponse 200 (Data_product p1)))
    /\ Product.row_name r1 = Product.row_name r
    /\ Product.row_price r1 = Product.row_price r
    /\ Product.row_createdAt r1 = Product.row_createdAt r
    /\ Product.row_availability r1
       = Some (negb (Product.truthy (Product.row_availability r)))
    /\ p1 = shown k r1
    /\ (forall j, j <> k ->
          <[k := r1]> (Product.table st) !! j = Product.table st !! j)
    /\ dom (<[k := r1]> (Product.table st)) = dom (Product.table st).
Proof.
  intros Hid Hr.
  rewrite (patch_reaches_handler now st req k Hid),
    (updateAvailability_existing now st req k r Hid Hr).
  do 2 eexists. split; [reflexivity|].
  do 4 (split; [reflexivity|]). split; [reflexivity|].
  split.
  - intros j Hj. by rewrite lookup_insert_ne.
  - apply dom_insert_lookup_L. eauto.
Qed.

Lemma C9_toggle_changes_availability_only_witness :
  exists r1 p1,
    Router.patch 6 one_product toggle_request
      = (Product.mkStore (<[1 := r1]> (Product.table one_product))
           (Product.last_id one_product),
         Some (mkResponse 200 (Data_product p1)))
    /\ Product.row_name r1 = Product.row_name mouse_row
    /\ Product.row_price r1 = Product.row_price mouse_row
    /\ Product.row_createdAt r1 = Product.row_createdAt mouse_row
    /\ Product.row_availability r1
       = Some (negb (Product.truthy (Product.row_availability mouse_row)))
    /\ p1 = shown 1 r1
    /\ (forall j, j <> 1 ->
          <[1 := r1]> (Product.table one_product) !! j
          = Product.table one_product !! j)
    /\ dom (<[1 := r1]> (Product.table one_product))
       = dom (Product.table one_product).
Proof.
  apply (C9_toggle_changes_availability_only 6 one_product toggle_request 1
           mouse_row); reflexivity.
Defined.

(** C4: the DELETE route on an existing product answers 200 with
    [{ data: "Product deleted" }] and removes the row, leaving every other
    row as it was; from then on the id is not found: get-by-id answers 404,
    and a second DELETE answers 404 and changes nothing. *)
Theorem C4_delete_once_then_not_found (st : Product.store) (req : request)
    (k : Z) (r : Product.row) :
  Product.parse_id (req_id req) = Some k ->
  Product.table st !! k = Some r ->
  let st1 := Product.mkStore (delete k (Product.table st)) (Product.last_id st) in
  Router.delete st req
    = (st1, Some (mkResponse 200 (Data_text "Product deleted")))
  /\ Product.table st1 !! k = None
  /\ (forall j, j <> k -> Product.table st1 !! j = Product.table st !! j)
  /\ Router.get st1 req = not_found st1
  /\ Router.delete st1 req = not_found st1.
Proof.
  intros Hid Hr st1.
  assert (Hgone : Product.table st1 !! k = None) by apply lookup_delete_eq.
  rewrite !(delete_reaches_handler _ req k Hid),
    (get_reaches_handler _ req k Hid).
  split; [exact (deleteProduct_found st req k Hid r Hr)|].
  split; [exact Hgone|].
  split; [intros j Hj; by apply lookup_delete_ne|].
  split.
  - exact (getProductById_missing st1 req k Hid Hgone).
  - exact (deleteProduct_missing st1 req k Hid Hgone).
Qed.

Lemma C4_delete_once_then_not_found_witness :
  let st1 := Product.mkStore (delete 1 (Product.table one_product)) 1 in
  Router.delete one_product toggle_request
    = (st1, Some (mkResponse 200 (Data_text "Product deleted")))
  /\ Product.table st1 !! 1 = None
  /\ (forall j, j <> 1 -> Product.table st1 !! j = Product.table one_product !! j)
  /\ Router.get st1 toggle_request = not_found st1
  /\ Router.delete st1 toggle_request = not_found st1.
Proof.
  apply (C4_delete_once_then_not_found one_product toggle_request 1 mouse_row);
    reflexivity.
Defined.




(** C10: get-by-id answers 200 with the stored product and does not exclude
    the audit timestamps: the body carries the row's [createdAt] and
    [updatedAt].  The list of the same store shows that product without them,
    so the product as get-by-id returns it is not an element of the list. *)
Theorem C10_get_by_id_shows_timestamps (st : Product.store) (req : request)
    (k : Z) (r : Product.row) :
  Product.parse_id (req_id req) = Some k ->
  Product.table st !! k = Some r ->
  Router.get st req = (st, Some (mkResponse 200 (Data_product (shown k r))))
  /\ Product.createdAt (shown k r) = Some (Product.row_createdAt r)
  /\ Product.updatedAt (shown k r) = Some (Product.row_updatedAt r)
  /\ exists products,
       Router.get_all st req
         = (st, Some (mkResponse 200 (Data_products products)))
       /\ listed k r ∈ products
       /\ shown k r ∉ products.
Proof.
  intros Hid Hr.
  rewrite (get_reaches_handler st req k Hid).
  split; [exact (getProductById_found st req k Hid r Hr)|].
  do 2 (split; [reflexivity|]).
  destruct (getProducts_listing st req) as (products & Hall & Hin & Hnone).
  exists products. split; [exact Hall|]. split; [by eapply Hin|].
  intros Hp. rewrite Forall_forall in Hnone.
  destruct (Hnone _ Hp) as [Hc _]. discriminate.
Qed.

Lemma C10_get_by_id_shows_timestamps_witness :
  Router.get one_product toggle_request
    = (one_product, Some (mkResponse 200 (Data_product (shown 1 mouse_row))))
  /\ Product.createdAt (shown 1 mouse_row) = Some 5
  /\ Product.updatedAt (shown 1 mouse_row) = Some 5
  /\ exists products,
       Router.get_all one_product toggle_request
         = (one_product, Some (mkResponse 200 (Data_products products)))
       /\ listed 1 mouse_row ∈ products
       /\ shown 1 mouse_row ∉ products.
Proof.
  apply (C10_get_by_id_shows_timestamps one_product toggle_request 1 mouse_row);
    reflexivity.
Defined.

End ClaimsOnOneProduct.

(** ** What the routes leave of the store *)

Section Safety.

(** [save] never rejects, and writes at most the row of the instance. *)
Lemma save_resolves (now : Z) (st : Product.store) (p : Product.t) :
  exists st1 p1, Product.save now st p = Resolved (st1, p1)
    /\ Product.id p1 = Product.id p
    /\ Product.last_id st1 = Product.last_id st
    /\ dom (Product.table st1) = dom (Product.table st)
    /\ (forall j, j <> Product.id p ->
          Product.table st1 !! j = Product.table st !! j).
Proof.
  unfold Product.save.
  destruct (Product.table st !! Product.id p) as [old|] eqn:Hold.
  - destruct (Product.same_columns _ _).
    + exists st, p. auto.
    + do 2 eexists. split; [reflexivity|]. simpl.
      split; [reflexivity|]. split; [reflexivity|]. split.
      * apply dom_insert_lookup_L. eauto.
      * intros j Hj. by rewrite lookup_insert_ne.
  - exists st, p. auto.
Qed.

Lemma update_frame (now : Z) (st st1 : Product.store) (p p1 : Product.t)
    (values : body) :
  Product.update now st p values = Resolved (st1, p1) ->
  Product.id p1 = Product.id p
  /\ Product.last_id st1 = Product.last_id st
  /\ dom (Product.table st1) = dom (Product.table st)
  /\ (forall j, j <> Product.id p ->
        Product.table st1 !! j = Product.table st !! j).
Proof.
  unfold Product.update.
  destruct (Product.changes_nothing p values).
  { intros [= <- <-]. by destruct (Product.sends_attribute values). }
  destruct (match b_name values with JUndefined => _ | _ => _ end) as [n|];
    [|discriminate].
  destruct (match b_price values with JUndefined => _ | _ => _ end) as [x|];
    [|discriminate].
  destruct (Product.boolean_column _ _) as [a|]; [|discriminate].
  destruct (Product.table st !! Product.id p) as [old|] eqn:Hold;
    intros [= <- <-]; simpl; auto.
  split; [reflexivity|]. split; [reflexivity|]. split.
  - apply dom_insert_lookup_L. eauto.
  - intros j Hj. by rewrite lookup_insert_ne.
Qed.

(** What [create] leaves: the table with one row more and the instance of
    that row, or the table as it was. *)
Lemma create_cases (now : Z) (st : Product.store) (values : body) :
  (exists k r next,
      Product.table st !! k = None
      /\ Product.create now st values
         = (Product.mkStore (<[k := r]> (Product.table st)) next,
            Resolved (shown k r)))
  \/ (exists next,
        Product.last_id st <= next <= Product.last_id st + 1
        /\ Product.create now st values
           = (Product.mkStore (Product.table st) next, Rejected)).
Proof.
  assert (Hsame : exists next,
            Product.last_id st <= next <= Product.last_id st + 1
            /\ (st, @Rejected Product.t)
               = (Product.mkStore (Product.table st) next, Rejected)).
  { exists (Product.last_id st). split; [lia|]. by destruct st. }
  unfold Product.create.
  destruct (Product.text_column _) as [n|]; [|by right].
  destruct (Product.numeric_column _) as [x|]; [|by right].
  destruct (Product.boolean_column _ _) as [a|]; [|by right].
  destruct (Product.date_column _ _) as [c|]; [|by right].
  destruct (Product.new_id st _) as [[k next]|] eqn:Hk; [|by right].
  destruct (Product.id_in_range k); [|by right].
  destruct (Product.table st !! k) eqn:Hr.
  - right. exists next. split; [|reflexivity].
    unfold Product.new_id in Hk.
    destruct (b_id values); try (injection Hk as <- <-; lia);
      destruct (Product.integer_column _); try discriminate;
      injection Hk as <- <-; lia.
  - left. exists k, (Product.mkRow n x a c now), next. by split.
Qed.

Lemma route_respects (R : Product.store -> Product.store -> Prop)
    (chains : list ExpressValidator.chain)
    (h : Product.store -> request -> outcome) :
  (forall st, R st st) -> respects R h -> respects R (Router.route chains h).
Proof.
  intros Hrefl Hh st req. unfold Router.route, Router.handleInputErrors.
  destruct (validationResult chains req); [apply Hh|apply Hrefl].
Qed.

Lemma getProducts_reads : respects eq getProducts.
Proof. intros st req. reflexivity. Qed.

Lemma getProductById_reads : respects eq getProductById.
Proof.
  intros st req. unfold getProductById.
  destruct (Product.findByPk st (req_id req)) as [[p|]|]; reflexivity.
Qed.

(** The two GET routes never change the store, whatever the request. *)
Theorem reads_keep_store (st : Product.store) (req : request) :
  fst (Router.get_all st req) = st /\ fst (Router.get st req) = st.
Proof.
  split; symmetry.
  - apply (route_respects eq); [done|apply getProducts_reads].
  - apply (route_respects eq); [done|apply getProductById_reads].
Qed.

Lemma same_ids_refl (st : Product.store) : same_ids st st.
Proof. split; reflexivity. Qed.

Lemma updateProduct_same_ids (now : Z) : respects same_ids (updateProduct now).
Proof.
  intros st req. unfold updateProduct.
  destruct (Product.findByPk st (req_id req)) as [[p|]|];
    try apply same_ids_refl.
  destruct (Product.update now st p (req_body req)) as [[st1 p1]|] eqn:Hu;
    [|apply same_ids_refl].
  apply update_frame in Hu as (_ & Hl1 & Hd1 & _).
  destruct (save_resolves now st1 p1) as (st2 & p2 & -> & _ & Hl2 & Hd2 & _).
  simpl. split; congruence.
Qed.

Lemma updateAvailability_same_ids (now : Z) :
  respects same_ids (updateAvailability now).
Proof.
  intros st req. unfold updateAvailability.
  destruct (Product.findByPk st (req_id req)) as [[p|]|];
    try apply same_ids_refl.
  destruct (save_resolves now st
              (Product.set_availability
                 (negb (Product.truthy (Product.availability p))) p))
    as (st1 & p1 & -> & _ & Hl & Hd & _).
  simpl. split; assumption.
Qed.

(** Update and toggle never create or delete a product: the set of ids
    in use and the id sequence are the same after the request, whatever the
    request. *)
Theorem updates_keep_ids (now : Z) (st : Product.store) (req : request) :
  same_ids st (fst (Router.put now st req))
  /\ same_ids st (fst (Router.patch now st req)).
Proof.
  split.
  - apply (route_respects same_ids);
      [apply same_ids_refl|apply updateProduct_same_ids].
  - apply (route_respects same_ids);
      [apply same_ids_refl|apply updateAvailability_same_ids].
Qed.

Lemma createProduct_only_adds (now : Z) : respects only_adds (createProduct now).
Proof.
  intros st req. unfold createProduct, only_adds.
  destruct (create_cases now st (req_body req))
    as [(k & r & next & Hfree & ->) | (next & _ & ->)]; simpl; [|done].
  by apply insert_subseteq.
Qed.

Lemma deleteProduct_only_removes : respects only_removes deleteProduct.
Proof.
  intros st req. unfold deleteProduct, only_removes.
  destruct (Product.findByPk st (req_id req)) as [[p|]|]; try done.
  simpl. split; [apply delete_subseteq|reflexivity].
Qed.

(** Create never changes or removes an existing product, and delete never
    changes or adds one. *)
Theorem create_adds_delete_removes (now : Z) (st : Product.store)
    (req : request) :
  only_adds st (fst (Router.post now st req))
  /\ only_removes st (fst (Router.delete st req)).
Proof.
  split.
  - apply (route_respects only_adds); [|apply createProduct_only_adds].
    intros s. unfold only_adds. done.
  - apply (route_respects only_removes); [|apply deleteProduct_only_removes].
    intros s. split; done.
Qed.

End Safety.

(** ** Reading back what was written *)

Section ReadBack.

Lemma findByPk_id (st : Product.store) (s : string) (p : Product.t) :
  Product.findByPk st s = Resolved (Some p) -> stored_as st p.
Proof.
  unfold Product.findByPk. destruct (Product.parse_id s) as [k|]; [|discriminate].
  destruct (Product.table st !! k) as [r|] eqn:Hr; [|discriminate].
  intros [= <-]. exists r. split; [exact Hr|reflexivity].
Qed.

Lemma same_columns_refl (r : Product.row) : Product.same_columns r r = true.
Proof.
  unfold Product.same_columns.
  rewrite String.eqb_refl, Bool.eqb_reflx, N.eqb_refl, Z.eqb_refl.
  destruct (Product.row_availability r) as [[]|]; reflexivity.
Qed.

(** Saving an instance that shows its row writes nothing. *)
Lemma save_shown (now : Z) (st : Product.store) (k : Z) (r : Product.row) :
  Product.table st !! k = Some r ->
  Product.save now st (shown k r) = Resolved (st, shown k r).
Proof.
  intros Hr. unfold Product.save. simpl Product.id. rewrite Hr.
  destruct r as [n x a c u]. unfold Product.to_row. simpl.
  change (Product.same_columns ?r _) with (Product.same_columns r r).
  by rewrite same_columns_refl.
Qed.

Lemma same_number_eq (x y : jsnum) :
  Product.same_number x y = true <-> x = y.
Proof.
  unfold Product.same_number. destruct x as [s m e], y as [s' m' e']. simpl.
  rewrite !andb_true_iff, Bool.eqb_true_iff, N.eqb_eq, Z.eqb_eq.
  split; [intros [[-> ->] ->]; reflexivity|intros [= -> -> ->]; auto].
Qed.

(** Whether a typed body repeats the row of the instance. *)
Lemma changes_nothing_typed (k : Z) (r : Product.row) (values : body)
    (n : string) (x : jsnum) (a : bool) :
  b_name values = JStr n -> b_price values = JNum x ->
  b_availability values = JBool a ->
  Product.changes_nothing (shown k r) values = true
  <-> (n, x, Some a)
      = (Product.row_name r, Product.row_price r, Product.row_availability r).
Proof.
  intros Hn Hx Ha. unfold Product.changes_nothing. rewrite Hn, Hx, Ha. simpl.
  rewrite !andb_true_iff, String.eqb_eq, same_number_eq.
  assert (Hb : Product.same_boolean (Some a) (Product.row_availability r) = true
               <-> Some a = Product.row_availability r).
  { destruct (Product.row_availability r) as [b|]; simpl.
    - rewrite Bool.eqb_true_iff. split; congruence.
    - split; discriminate. }
  rewrite Hb.
  split; [intros [[-> ->] ->]; reflexivity|intros [= -> -> ->]; auto].
Qed.

Lemma createProduct_stored (now : Z) (st st1 : Product.store) (req : request)
    (s : Z) (p : Product.t) :
  createProduct now st req = (st1, Some (mkResponse s (Data_product p))) ->
  s = 201 /\ stored_as st1 p.
Proof.
  unfold createProduct.
  destruct (create_cases now st (req_body req))
    as [(k & r & next & Hfree & ->) | (next & _ & ->)]; [|discriminate].
  intros [= <- <- <-]. split; [reflexivity|].
  exists r. split; [apply lookup_insert_eq|reflexivity].
Qed.

Lemma updateAvailability_stored (now : Z) (st st1 : Product.store)
    (req : request) (s : Z) (p : Product.t) :
  updateAvailability now st req = (st1, Some (mkResponse s (Data_product p))) ->
  s = 200 /\ stored_as st1 p.
Proof.
  unfold updateAvailability.
  destruct (Product.findByPk st (req_id req)) as [[p0|]|] eqn:Hf;
    try discriminate.
  apply findByPk_id in Hf as (r0 & Hr0 & Hp0).
  set (k := Product.id p0) in *. clearbody k. subst p0.
  change (shown k r0) with (Product.instance [] k r0).
  unfold Product.save. simpl Product.id. rewrite Hr0.
  change (Product.availability (Product.instance [] k r0))
    with (Product.row_availability r0).
  rewrite (toggle_columns_differ r0 k).
  intros [= <- <- <-]. split; [reflexivity|].
  eexists. split; [apply lookup_insert_eq|reflexivity].
Qed.

Lemma route_answer (chains : list ExpressValidator.chain)
    (h : Product.store -> request -> outcome) (st st1 : Product.store)
    (req : request) (s : Z) (p : Product.t) :
  Router.route chains h st req = (st1, Some (mkResponse s (Data_product p))) ->
  h st req = (st1, Some (mkResponse s (Data_product p))).
Proof.
  unfold Router.route, Router.handleInputErrors.
  destruct (validationResult chains req); [done|discriminate].
Qed.

(** What a write answers is what a read returns.  When the create or the
    toggle route answers with a product, get-by-id on the store it leaves,
    with any id text that denotes the product's id, answers 200 with exactly
    that product. *)
Theorem written_product_is_read_back (now : Z) (st st1 : Product.store)
    (req req' : request) (s : Z) (p : Product.t) :
  Router.post now st req = (st1, Some (mkResponse s (Data_product p)))
  \/ Router.patch now st req = (st1, Some (mkResponse s (Data_product p))) ->
  Product.parse_id (req_id req') = Some (Product.id p) ->
  Router.get st1 req' = (st1, Some (mkResponse 200 (Data_product p))).
Proof.
  intros Hwrite Hid.
  assert (Hst : stored_as st1 p).
  { destruct Hwrite as [H | H]; apply route_answer in H.
    - by apply createProduct_stored in H as [_ H].
    - by apply updateAvailability_stored in H as [_ H]. }
  destruct Hst as (r & Hr & Hp).
  rewrite (get_reaches_handler st1 req' _ Hid).
  rewrite (getProductById_found st1 req' _ Hid r Hr), <- Hp. reflexivity.
Qed.

Lemma written_product_is_read_back_witness :
  Router.get seventh_product (mkRequest "7" no_body)
  = (seventh_product, Some (mkResponse 200 (Data_product (shown 7 mouse_row)))).
Proof.
  apply (written_product_is_read_back 5 empty_store _ numbered_request
           (mkRequest "7" no_body) 201 (shown 7 mouse_row)).
  - left. reflexivity.
  - reflexivity.
Defined.

End ReadBack.

(** ** More on the rules of create and update *)

Section MoreRules.
Import ExpressValidator.

Lemma toString_empty (v : jsval) :
  Validator.isEmpty (toString v) = true ->
  v = JUndefined \/ v = JNull \/ v = JStr "".
Proof.
  destruct v as [| |[]|x|s]; simpl; auto; try discriminate.
  - by rewrite Number_toString_not_empty.
  - destruct s; [auto|discriminate].
Qed.

(** The error "Price is required" never comes alone: whenever the price
    rule of a request reports it, it reports all three of its errors, in the
    order of the chain; and it reports it exactly when the price is missing,
    null or the empty text. *)
Theorem price_required_never_alone (req : request) :
  (In (mkError "Price is required" "price" Body (b_price (req_body req)))
      (run_chain req Router.price_rule)
   <-> b_price (req_body req) = JUndefined
       \/ b_price (req_body req) = JNull
       \/ b_price (req_body req) = JStr "")
  /\ (In (mkError "Price is required" "price" Body (b_price (req_body req)))
         (run_chain req Router.price_rule) ->
      run_chain req Router.price_rule
      = all_price_errors (b_price (req_body req))).
Proof.
  rewrite run_price_rule. generalize (b_price (req_body req)) as v. intros v.
  assert (Hall : v = JUndefined \/ v = JNull \/ v = JStr "" ->
                 price_errors v = all_price_errors v).
  { intros [-> | [-> | ->]]; reflexivity. }
  assert (Hempty : In (mkError "Price is required" "price" Body v) (price_errors v)
                   -> Validator.isEmpty (toString v) = true).
  { unfold price_errors, error_if. intros H.
    destruct (Validator.isEmpty (toString v)); [reflexivity|].
    repeat (apply in_app_or in H as [H | H]);
      try (destruct (negb _); simpl in H; [destruct H as [H | []]|destruct H];
           discriminate H).
    destruct H. }
  split; [split|].
  - intros H. by apply toString_empty, Hempty.
  - intros H. rewrite (Hall H). right. by left.
  - intros H. by apply Hall, toString_empty, Hempty.
Qed.

Lemma price_required_never_alone_witness :
  run_chain toggle_request Router.price_rule = all_price_errors JUndefined.
Proof.
  destruct (price_required_never_alone toggle_request) as [[_ Hin] Hall].
  apply Hall, Hin. by left.
Defined.

(** The name rule looks at the text of the value, not at its type: every
    number and every boolean sent as [name] passes it. *)
Theorem name_rule_passes_numbers_and_booleans (req : request) :
  (exists x, b_name (req_body req) = JNum x)
  \/ (exists b, b_name (req_body req) = JBool b) ->
  run_chain req Router.name_rule = [].
Proof.
  rewrite run_name_rule. unfold name_errors, error_if.
  intros [[x ->] | [b ->]]; simpl.
  - by rewrite Number_toString_not_empty.
  - by destruct b.
Qed.

Lemma name_rule_passes_numbers_and_booleans_witness :
  run_chain (mkRequest "" (mkBody (JNum (mkNum false 0 0)) JUndefined JUndefined))
            Router.name_rule = [].
Proof.
  apply (name_rule_passes_numbers_and_booleans
           (mkRequest "" (mkBody (JNum (mkNum false 0 0)) JUndefined JUndefined))).
  left. eexists. reflexivity.
Defined.

(** A positive price that is written with an exponent (at least 1e21, or
    below 1e-6) is refused by the create route, with the single error "Price
    must be a number", although it is a number above zero. *)
Theorem positive_exponent_price_refused (now : Z) (st : Product.store)
    (req : request) (s : string) (x : jsnum) :
  b_name (req_body req) = JStr s -> s <> "" ->
  b_price (req_body req) = JNum x ->
  gt_zero (JNum x) = true ->
  ~ plain_notation x ->
  Router.post now st req
  = (st, Some (mkResponse 400
                 (Errors [mkError "Price must be a number" "price" Body (JNum x)]))).
Proof.
  intros Hname Hs Hprice Hpos Hexp.
  assert (Herr : validationResult Router.post_rules req
                 = [mkError "Price must be a number" "price" Body (JNum x)]).
  { rewrite post_validation, Hname, Hprice, (name_errors_text s Hs).
    unfold price_errors. simpl toString.
    rewrite (Number_toString_exponent x Hexp), Number_toString_not_empty, Hpos.
    reflexivity. }
  unfold Router.post.
  rewrite route_invalid; rewrite Herr; [reflexivity|discriminate].
Qed.

Lemma positive_exponent_price_refused_witness :
  Router.post 5 empty_store
    (mkRequest "" (mkBody (JStr "Mouse-Testing") (JNum (mkNum false 1 21)) JUndefined))
  = (empty_store,
     Some (mkResponse 400
             (Errors [mkError "Price must be a number" "price" Body
                        (JNum (mkNum false 1 21))]))).
Proof.
  apply (positive_exponent_price_refused 5 empty_store
           (mkRequest "" (mkBody (JStr "Mouse-Testing") (JNum (mkNum false 1 21))
                                 JUndefined))
           "Mouse-Testing" (mkNum false 1 21)).
  - reflexivity.
  - discriminate.
  - reflexivity.
  - reflexivity.
  - intros [H | H]; [discriminate H|]. vm_compute in H. destruct H as [_ H].
    by apply H.
Defined.

Lemma price_errors_accepted (x : jsnum) :
  gt_zero (JNum x) = true -> plain_notation x -> price_errors (JNum x) = [].
Proof.
  intros Hpos Hplain. unfold price_errors. simpl toString.
  rewrite (Number_toString_plain x Hplain), Number_toString_not_empty, Hpos.
  reflexivity.
Qed.

(** The create route accepts every request that sends a non-empty text
    name, a positive price written without an exponent, an availability that
    is absent or a boolean, and no id and no [createdAt]: when the next id of
    the sequence is an id of the column that is not in use, it answers 201
    and stores the product under that id. *)
Theorem create_accepts_typed_request (now : Z) (st : Product.store)
    (req : request) (n : string) (x : jsnum) (a : bool) :
  b_id (req_body req) = JUndefined ->
  b_createdAt (req_body req) = DateAbsent ->
  b_name (req_body req) = JStr n -> n <> "" ->
  b_price (req_body req) = JNum x ->
  gt_zero (JNum x) = true -> plain_notation x ->
  (b_availability (req_body req) = JUndefined /\ a = true)
  \/ b_availability (req_body req) = JBool a ->
  Product.id_in_range (Product.last_id st + 1) = true ->
  Product.table st !! (Product.last_id st + 1) = None ->
  validationResult Router.post_rules req = []
  /\ Router.post now st req
     = (Product.mkStore
          (<[Product.last_id st + 1 := Product.mkRow n x (Some a) now now]>
             (Product.table st))
          (Product.last_id st + 1),
        Some (mkResponse 201
                (Data_product
                   (shown (Product.last_id st + 1)
                          (Product.mkRow n x (Some a) now now))))).
Proof.
  intros Hid Hc Hn Hne Hx Hpos Hplain Ha Hrange Hfree.
  assert (Hvalid : validationResult Router.post_rules req = []).
  { rewrite post_validation, Hn, Hx, (name_errors_text n Hne),
      (price_errors_accepted x Hpos Hplain). reflexivity. }
  split; [exact Hvalid|].
  unfold Router.post. rewrite (route_valid _ _ _ _ Hvalid).
  apply createProduct_reads; try assumption.
  - by rewrite Hn.
  - by rewrite Hx.
  - by destruct Ha as [[-> ->] | ->].
  - by rewrite Hc.
  - by rewrite Hid.
Qed.

Lemma create_accepts_typed_request_witness :
  validationResult Router.post_rules mouse_request = []
  /\ Router.post 5 empty_store mouse_request
     = (Product.mkStore (<[0 + 1 := mouse_row]> ∅) (0 + 1),
        Some (mkResponse 201 (Data_product (shown (0 + 1) mouse_row)))).
Proof.
  apply (create_accepts_typed_request 5 empty_store mouse_request
           "Mouse-Testing" (mkNum false 1 2) true).
  - reflexivity.
  - reflexivity.
  - reflexivity.
  - discriminate.
  - reflexivity.
  - reflexivity.
  - right. vm_compute. split; [reflexivity|discriminate].
  - left. split; reflexivity.
  - reflexivity.
  - reflexivity.
Defined.

(** The update route on an existing product, for a body that has a
    non-empty text name, a positive price written without an exponent and a
    boolean availability, answers 200 with the product.  When the three
    values are those of the row, nothing is written: the store is as it was,
    and the product of the answer has the id and the three values of the
    row.  Otherwise the row takes the three fields from the body, keeps its
    id and [createdAt] and gets [updatedAt] stamped, the answer shows that
    row, and the other rows are as they were. *)
Theorem update_replaces_fields (now : Z) (st : Product.store) (req : request)
    (k : Z) (r : Product.row) (n : string) (x : jsnum) (a : bool) :
  Product.parse_id (req_id req) = Some k ->
  Product.table st !! k = Some r ->
  b_name (req_body req) = JStr n -> n <> "" ->
  b_price (req_body req) = JNum x ->
  gt_zero (JNum x) = true -> plain_notation x ->
  b_availability (req_body req) = JBool a ->
  let r1 := Product.mkRow n x (Some a) (Product.row_createdAt r) now in
  ((n, x, Some a)
   = (Product.row_name r, Product.row_price r, Product.row_availability r) ->
   exists p,
     Router.put now st req = (st, Some (mkResponse 200 (Data_product p)))
     /\ in_list p = listed k r)
  /\ ((n, x, Some a)
      <> (Product.row_name r, Product.row_price r, Product.row_availability r) ->
      Router.put now st req
      = (Product.mkStore (<[k := r1]> (Product.table st)) (Product.last_id st),
         Some (mkResponse 200 (Data_product (shown k r1))))).
Proof.
  intros Hid Hr Hn Hne Hx Hpos Hplain Ha r1.
  assert (Hbody : put_body_errors (req_body req) = []).
  { unfold put_body_errors.
    rewrite Hn, Hx, Ha, (name_errors_text n Hne),
      (price_errors_accepted x Hpos Hplain).
    by destruct a. }
  rewrite (put_reaches_handler now st req k Hid Hbody).
  unfold updateProduct. rewrite (findByPk_parsed st _ k Hid), Hr. simpl fmap.
  change (Product.instance [] k r) with (shown k r).
  pose proof (changes_nothing_typed k r (req_body req) n x a Hn Hx Ha) as Hsame.
  unfold Product.update. split.
  - intros Heq. apply Hsame in Heq. rewrite Heq.
    assert (Hsent : Product.sends_attribute (req_body req) = true).
    { unfold Product.sends_attribute. rewrite Hn. apply orb_true_iff. left.
      apply orb_true_iff. left. apply orb_true_iff. left.
      apply orb_true_r. }
    rewrite Hsent.
    change (Product.stamp now (shown k r))
      with (shown k (Product.touch now r)).
    unfold Product.save. simpl Product.id. rewrite Hr.
    assert (Hcols : Product.same_columns r
                      (Product.to_row r (shown k (Product.touch now r))) = true).
    { destruct r as [n0 x0 a0 c0 u0]. unfold Product.to_row. simpl.
      apply (same_columns_refl (Product.mkRow n0 x0 a0 c0 u0)). }
    rewrite Hcols. eexists. split; reflexivity.
  - intros Hdiff.
    destruct (Product.changes_nothing _ _); [by destruct Hdiff; apply Hsame|].
    rewrite Hn, Hx, Ha. simpl. rewrite Hr.
    change (Product.mk k n x (Some a) (Some (Product.row_createdAt r))
                       (Some now))
      with (shown k r1).
    rewrite save_shown by apply lookup_insert_eq. reflexivity.
Qed.

Lemma update_replaces_fields_witness :
  (exists p,
     Router.put 9 one_product
       (mkRequest "1" (mkBody (JStr "Mouse-Testing") (JNum (mkNum false 1 2))
                              (JBool true)))
     = (one_product, Some (mkResponse 200 (Data_product p)))
     /\ in_list p = listed 1 mouse_row)
  /\ Router.put 9 one_product
       (mkRequest "1" (mkBody (JStr "Monitor-Testing-updated")
                              (JNum (mkNum false 1 2)) (JBool true)))
     = (Product.mkStore
          (<[1 := Product.mkRow "Monitor-Testing-updated" (mkNum false 1 2)
                    (Some true) 5 9]>
             (Product.table one_product)) 1,
        Some (mkResponse 200
                (Data_product
                   (shown 1 (Product.mkRow "Monitor-Testing-updated"
                               (mkNum false 1 2) (Some true) 5 9))))).
Proof.
  assert (Hplain : plain_notation (mkNum false 1 2)).
  { right. vm_compute. split; [reflexivity|discriminate]. }
  split.
  - apply (update_replaces_fields 9 one_product
             (mkRequest "1" (mkBody (JStr "Mouse-Testing")
                                    (JNum (mkNum false 1 2)) (JBool true)))
             1 mouse_row "Mouse-Testing" (mkNum false 1 2) true
             eq_refl eq_refl eq_refl ltac:(discriminate) eq_refl eq_refl
             Hplain eq_refl).
    reflexivity.
  - apply (update_replaces_fields 9 one_product
             (mkRequest "1" (mkBody (JStr "Monitor-Testing-updated")
                                    (JNum (mkNum false 1 2)) (JBool true)))
             1 mouse_row "Monitor-Testing-updated" (mkNum false 1 2) true
             eq_refl eq_refl eq_refl ltac:(discriminate) eq_refl eq_refl
             Hplain eq_refl).
    discriminate.
Defined.

End MoreRules.

(** ** Requests that fail *)

Section FailuresAndLists.

Lemma route_quiet (chains : list ExpressValidator.chain)
    (h : Product.store -> request -> outcome) :
  (forall st req, quiet st (h st req)) ->
  forall st req, quiet st (Router.route chains h st req).
Proof.
  intros Hh st req. unfold Router.route, Router.handleInputErrors.
  destruct (validationResult chains req); [apply Hh|by left].
Qed.

Lemma ok_200 (st : Product.store) (j : payload) :
  succeeded (st, Some (mkResponse 200 j)).
Proof. left. by exists j. Qed.

Lemma createProduct_quiet (now : Z) (st : Product.store) (req : request) :
  quiet_but_sequence st (createProduct now st req).
Proof.
  unfold createProduct.
  destruct (create_cases now st (req_body req))
    as [(k & r & next & Hfree & ->) | (next & Hnext & ->)].
  - right. right. by eexists.
  - left. split; [reflexivity|exact Hnext].
Qed.

Lemma updateProduct_quiet (now : Z) (st : Product.store) (req : request) :
  quiet st (updateProduct now st req).
Proof.
  unfold updateProduct.
  destruct (Product.findByPk st (req_id req)) as [[p|]|]; try by left.
  destruct (Product.update now st p (req_body req)) as [[st1 p1]|]; [|by left].
  destruct (save_resolves now st1 p1) as (st2 & p2 & -> & _).
  right. apply ok_200.
Qed.

Lemma updateAvailability_quiet (now : Z) (st : Product.store) (req : request) :
  quiet st (updateAvailability now st req).
Proof.
  unfold updateAvailability.
  destruct (Product.findByPk st (req_id req)) as [[p|]|]; try by left.
  destruct (save_resolves now st
              (Product.set_availability
                 (negb (Product.truthy (Product.availability p))) p))
    as (st2 & p2 & -> & _).
  right. apply ok_200.
Qed.

Lemma deleteProduct_quiet (st : Product.store) (req : request) :
  quiet st (deleteProduct st req).
Proof.
  unfold deleteProduct.
  destruct (Product.findByPk st (req_id req)) as [[p|]|]; try by left.
  right. apply ok_200.
Qed.

(** A request that is not answered with 200 or 201 writes no row: on every
    route, a 400, a 404, a 500 or no response at all means that the table is
    as it was.  On every route but create the whole store is as it was; a
    create request that fails may have taken an id from the sequence, which
    is then one further. *)
Theorem failed_requests_keep_store (now : Z) (st : Product.store)
    (req : request) :
  quiet st (Router.get_all st req)
  /\ quiet st (Router.get st req)
  /\ quiet_but_sequence st (Router.post now st req)
  /\ quiet st (Router.put now st req)
  /\ quiet st (Router.patch now st req)
  /\ quiet st (Router.delete st req).
Proof.
  destruct (reads_keep_store st req) as [Hall Hget].
  split; [by left|]. split; [by left|].
  split.
  { unfold Router.post, Router.route, Router.handleInputErrors.
    destruct (validationResult _ req); [apply createProduct_quiet|].
    left. simpl. split; [reflexivity|lia]. }
  split; [|split]; apply route_quiet; intros st0 req0.
  - apply updateProduct_quiet.
  - apply updateAvailability_quiet.
  - apply deleteProduct_quiet.
Qed.

(** The sequence does move on a create request that fails: the request of
    the tests, on a store whose next id is in use, gets no response, and the
    sequence is one further. *)
Lemma rejected_insert_takes_id :
  Router.post 9 sequence_behind mouse_request = (one_product, None).
Proof. reflexivity. Qed.

(** When the lookup of the id rejects, get-by-id answers 500 with
    [{ error: "Server error" }], while update, toggle and delete, which have
    no [try], send no response at all; none of them writes. *)
Theorem rejected_lookup (now : Z) (st : Product.store) (req : request) :
  Product.findByPk st (req_id req) = Rejected ->
  getProductById st req = (st, Some (mkResponse 500 (Error_text "Server error")))
  /\ updateProduct now st req = (st, None)
  /\ updateAvailability now st req = (st, None)
  /\ deleteProduct st req = (st, None).
Proof.
  intros H. unfold getProductById, updateProduct, updateAvailability,
    deleteProduct. rewrite H. auto.
Qed.

Lemma rejected_lookup_witness :
  getProductById one_product bad_id_request
    = (one_product, Some (mkResponse 500 (Error_text "Server error")))
  /\ updateProduct 5 one_product bad_id_request = (one_product, None)
  /\ updateAvailability 5 one_product bad_id_request = (one_product, None)
  /\ deleteProduct one_product bad_id_request = (one_product, None).
Proof.
  apply (rejected_lookup 5 one_product bad_id_request). reflexivity.
Defined.

End FailuresAndLists.

(** ** The list after a write *)

Section ListAfterWrite.

#[local] Existing Instance flip_le_total.

#[local] Instance flip_le_antisymm : AntiSymm (=) (flip Z.le).
Proof. intros x y. unfold flip. lia. Qed.

Lemma get_all_listing (st : Product.store) (req : request) :
  Router.get_all st req
  = (st, Some (mkResponse 200 (Data_products (listing st)))).
Proof. reflexivity. Qed.

Lemma sort_ids_unique (l : list Z) (ids : list Z) :
  StronglySorted (flip Z.le) l -> l ≡ₚ ids -> Product.sort_ids DESC ids = l.
Proof.
  intros Hs Hp. simpl.
  apply (StronglySorted_unique (flip Z.le)); [|exact Hs|].
  - apply StronglySorted_merge_sort; apply _.
  - by rewrite merge_sort_Permutation.
Qed.

Lemma sorted_filter (P : Z -> Prop) `{forall x, Decision (P x)} (l : list Z) :
  StronglySorted (flip Z.le) l -> StronglySorted (flip Z.le) (filter P l).
Proof.
  induction 1 as [|x l Hs IH Hx]; [constructor|].
  rewrite filter_cons. case_decide; [|exact IH].
  constructor; [exact IH|].
  rewrite Forall_forall in Hx |- *. intros y Hy.
  apply Hx. by apply list_elem_of_filter in Hy as [_ Hy].
Qed.

(** The ids after an insert: the new id between the greater and the lesser
    ones. *)
Lemma sort_ids_insert (m : gmap Z Product.row) (k : Z) (r : Product.row) :
  m !! k = None ->
  Product.sort_ids DESC (elements (dom (<[k := r]> m)))
  = filter (fun j => k < j) (Product.sort_ids DESC (elements (dom m)))
    ++ k :: filter (fun j => j < k) (Product.sort_ids DESC (elements (dom m))).
Proof.
  intros Hfree.
  assert (Hsorted : StronglySorted (flip Z.le)
                      (Product.sort_ids DESC (elements (dom m)))).
  { apply StronglySorted_merge_sort; apply _. }
  assert (Hnodup : NoDup (Product.sort_ids DESC (elements (dom m)))).
  { simpl. rewrite merge_sort_Permutation. apply NoDup_elements. }
  assert (Hin : forall j, j ∈ Product.sort_ids DESC (elements (dom m))
                          <-> j ∈ dom m).
  { intros j. simpl. by rewrite merge_sort_Permutation, elem_of_elements. }
  assert (Hk : k ∉ dom m) by by apply not_elem_of_dom.
  apply sort_ids_unique.
  - apply StronglySorted_app_2.
    + intros x1 x2 H1 H2. unfold flip.
      apply list_elem_of_filter in H1 as [H1 _].
      apply elem_of_cons in H2 as [-> | H2]; [lia|].
      apply list_elem_of_filter in H2 as [H2 _]. lia.
    + by apply sorted_filter.
    + constructor; [by apply sorted_filter|].
      rewrite Forall_forall. intros j Hj. unfold flip.
      apply list_elem_of_filter in Hj as [Hj _]. lia.
  - apply NoDup_Permutation.
    + apply NoDup_app. split; [by apply NoDup_filter|]. split.
      * intros j H1 H2. apply list_elem_of_filter in H1 as [H1 _].
        apply elem_of_cons in H2 as [-> | H2]; [lia|].
        apply list_elem_of_filter in H2 as [H2 _]. lia.
      * apply NoDup_cons. split; [|by apply NoDup_filter].
        intros H. apply list_elem_of_filter in H as [H _]. lia.
    + apply NoDup_elements.
    + intros j.
      rewrite elem_of_app, elem_of_cons, !list_elem_of_filter, !Hin,
        elem_of_elements, dom_insert_L, elem_of_union, elem_of_singleton.
      split.
      * intros [[_ H] | [-> | [_ H]]]; auto.
      * intros [-> | H]; [auto|].
        destruct (Z.lt_trichotomy j k) as [Hlt | [-> | Hgt]];
          [auto|contradiction|auto].
Qed.

Lemma omap_agree {A B : Type} (f g : A -> option B) (l : list A) :
  (forall x, x ∈ l -> f x = g x) -> omap f l = omap g l.
Proof.
  induction l as [|x l IH]; intros H; [reflexivity|].
  csimpl. rewrite (H x) by left. rewrite IH; [reflexivity|].
  intros y Hy. apply H. by right.
Qed.

(** Listing the ids that satisfy [P] is filtering the list by the id. *)
Lemma listing_filter (m : gmap Z Product.row) (ex : list string)
    (P : Z -> Prop) `{forall x, Decision (P x)} (l : list Z) :
  omap (fun j => Product.instance ex j <$> m !! j) (filter P l)
  = filter (fun q => P (Product.id q))
      (omap (fun j => Product.instance ex j <$> m !! j) l).
Proof.
  induction l as [|j l IH]; [reflexivity|].
  rewrite filter_cons. csimpl.
  destruct (m !! j) as [r|] eqn:Hr; csimpl.
  - rewrite filter_cons. simpl Product.id.
    destruct (decide (P j)); csimpl; [by rewrite Hr, IH|exact IH].
  - destruct (decide (P j)); csimpl; [by rewrite Hr|exact IH].
Qed.

Lemma listing_insert (st : Product.store) (k : Z) (r : Product.row)
    (next : Z) :
  Product.table st !! k = None ->
  listing (Product.mkStore (<[k := r]> (Product.table st)) next)
  = filter (fun q => k < Product.id q) (listing st)
    ++ listed k r :: filter (fun q => Product.id q < k) (listing st).
Proof.
  intros Hfree. unfold listing. simpl Product.table.
  rewrite (sort_ids_insert _ k r Hfree), omap_app. csimpl.
  rewrite lookup_insert_eq. csimpl.
  assert (Hother : forall (P : Z -> Prop) `{forall x, Decision (P x)},
    (forall j, P j -> j <> k) ->
    omap (fun j => Product.instance ["createdAt"; "updatedAt"] j
                     <$> <[k := r]> (Product.table st) !! j)
         (filter P (Product.sort_ids DESC (elements (dom (Product.table st)))))
    = filter (fun q => P (Product.id q)) (listing st)).
  { intros P HP Hne. unfold listing. rewrite <- listing_filter.
    apply omap_agree. intros j Hj.
    apply list_elem_of_filter in Hj as [Hj _].
    by rewrite lookup_insert_ne by (symmetry; by apply Hne). }
  f_equal; [|f_equal].
  - apply (Hother (fun j => k < j)). lia.
  - apply (Hother (fun j => j < k)). lia.
Qed.

(** A product that was just created is in the list at the place of its id:
    after the products with a greater id and before those with a lesser id,
    which are in the order in which they were. *)
Theorem created_product_joins_list (now : Z) (st st1 : Product.store)
    (req req' : request) (s : Z) (p : Product.t) :
  Router.post now st req = (st1, Some (mkResponse s (Data_product p))) ->
  exists products,
    Router.get_all st req'
      = (st, Some (mkResponse 200 (Data_products products)))
    /\ Router.get_all st1 req'
       = (st1,
          Some (mkResponse 200
                  (Data_products
                     (filter (fun q => Product.id p < Product.id q) products
                      ++ in_list p
                         :: filter (fun q => Product.id q < Product.id p)
                                   products)))).
Proof.
  intros Hpost. exists (listing st). split; [apply get_all_listing|].
  rewrite get_all_listing.
  apply route_answer in Hpost. revert Hpost. unfold createProduct.
  destruct (create_cases now st (req_body req))
    as [(k & r & next & Hfree & ->) | (next & _ & ->)]; [|discriminate].
  intros [= <- <- <-]. by rewrite (listing_insert st k r next Hfree).
Qed.

Lemma created_product_joins_list_witness :
  exists products,
    Router.get_all one_product toggle_request
      = (one_product, Some (mkResponse 200 (Data_products products)))
    /\ Router.get_all
         (Product.mkStore (<[7 := mouse_row]> (Product.table one_product)) 1)
         toggle_request
       = (Product.mkStore (<[7 := mouse_row]> (Product.table one_product)) 1,
          Some (mkResponse 200
                  (Data_products
                     (filter (fun q => 7 < Product.id q) products
                      ++ in_list (shown 7 mouse_row)
                         :: filter (fun q => Product.id q < 7) products)))).
Proof.
  apply (created_product_joins_list 5 one_product _ numbered_request
           toggle_request 201 (shown 7 mouse_row)).
  reflexivity.
Defined.

Lemma sort_ids_delete (m : gmap Z Product.row) (k : Z) :
  Product.sort_ids DESC (elements (dom (delete k m)))
  = filter (fun j => j <> k) (Product.sort_ids DESC (elements (dom m))).
Proof.
  apply sort_ids_unique.
  - apply sorted_filter. apply StronglySorted_merge_sort; apply _.
  - apply NoDup_Permutation.
    + apply NoDup_filter. simpl. rewrite merge_sort_Permutation.
      apply NoDup_elements.
    + apply NoDup_elements.
    + intros j. simpl.
      rewrite list_elem_of_filter, merge_sort_Permutation, !elem_of_elements,
        dom_delete_L, elem_of_difference, elem_of_singleton.
      tauto.
Qed.

Lemma listing_delete (st : Product.store) (k : Z) (last : Z) :
  listing (Product.mkStore (delete k (Product.table st)) last)
  = filter (fun p => Product.id p <> k) (listing st).
Proof.
  unfold listing. simpl Product.table. rewrite sort_ids_delete.
  assert (Hin : forall j,
    j ∈ Product.sort_ids DESC (elements (dom (Product.table st))) ->
    is_Some (Product.table st !! j)).
  { intros j Hj. by apply (sorted_ids_spec (Product.table st)). }
  revert Hin.
  induction (Product.sort_ids DESC (elements (dom (Product.table st))))
    as [|j l IH]; intros Hin; [reflexivity|].
  destruct (Hin j) as [r Hr]; [left|].
  assert (IH' := IH (fun i Hi => Hin i (list_elem_of_further _ _ _ Hi))).
  rewrite filter_cons. csimpl. rewrite Hr. csimpl. rewrite filter_cons.
  simpl Product.id.
  destruct (decide (j <> k)) as [Hjk | Hjk].
  - csimpl. rewrite lookup_delete_ne by done. rewrite Hr. csimpl.
    by rewrite IH'.
  - exact IH'.
Qed.

(** After a product is deleted, the list is the list of before without
    that product: the other products are all there, in the same order. *)
Theorem deleted_product_leaves_list (st st1 : Product.store)
    (req req' : request) (k : Z) (j : payload) :
  Product.parse_id (req_id req) = Some k ->
  Router.delete st req = (st1, Some (mkResponse 200 j)) ->
  exists products,
    Router.get_all st req'
      = (st, Some (mkResponse 200 (Data_products products)))
    /\ Router.get_all st1 req'
       = (st1, Some (mkResponse 200
                       (Data_products
                          (filter (fun p => Product.id p <> k) products)))).
Proof.
  intros Hid Hdel. exists (listing st). split; [apply get_all_listing|].
  rewrite get_all_listing.
  rewrite (delete_reaches_handler st req k Hid) in Hdel. revert Hdel.
  unfold deleteProduct. rewrite (findByPk_parsed st _ k Hid).
  destruct (Product.table st !! k) as [r|]; [|discriminate].
  simpl. intros [= <- _]. by rewrite listing_delete.
Qed.

Lemma deleted_product_leaves_list_witness :
  exists products,
    Router.get_all one_product toggle_request
      = (one_product, Some (mkResponse 200 (Data_products products)))
    /\ Router.get_all (Product.mkStore (delete 1 (Product.table one_product)) 1)
         toggle_request
       = (Product.mkStore (delete 1 (Product.table one_product)) 1,
          Some (mkResponse 200
                  (Data_products
                     (filter (fun p => Product.id p <> 1) products)))).
Proof.
  apply (deleted_product_leaves_list one_product _ toggle_request
           toggle_request 1 (Data_text "Product deleted")).
  - reflexivity.
  - reflexivity.
Defined.

End ListAfterWrite.
